(** * ac-learn: the [Learner] facade of [index.js]

  A shallow embedding of the [Learner] class and of the collaborators it
  drives (the classifier, limdu's evaluation utilities, train-test-split,
  the serialization package and [fs]), followed by the properties of the
  specification that concern it. [eval] and [backClassify] only delegate
  to a collaborator and are left out.

  Conventions.
  - A JS object with identity (a dataset sample) carries its identity in
    the field [oid]; [Array.prototype.includes] compares identities.
  - A JS number that is a ratio or an accumulator field is an IEEE-754
    double ([float]); the counters of [getCategoryPartition], which only
    ever grow by [++] from [0], are natural numbers, and the split ratio
    is a rational.
  - A method that reads or writes [this] is a computation in the monad [M]:
    it receives the machine state (the Learner and the log of the calls
    made to collaborators) and yields a result or a thrown error together
    with the new state.
  - The collaborators are interfaces (type classes); what the sources do
    not contain is a parameter of the development. *)

From Stdlib Require Import ZArith QArith Qround Floats Ascii Lia List.
From stdpp Require Import gmap strings list fin_maps.

Close Scope Q_scope.
Open Scope nat_scope.

(** ** JavaScript preliminaries *)

(** What a call can throw: the runtime's [TypeError] (reading a property of
  [undefined]) or an error raised by a collaborator. *)
Inductive JsError :=
| TypeError (msg : string)
| ExtError (msg : string).

Inductive Res (A : Type) :=
| OK (a : A)
| Throw (e : JsError).
Arguments OK {A} a.
Arguments Throw {A} e.

Definition is_OK {A} (r : Res A) : bool :=
  match r with OK _ => true | Throw _ => false end.

Definition res_bind {A B} (r : Res A) (k : A → Res B) : Res B :=
  match r with OK a => k a | Throw e => Throw e end.

#[global] Instance Res_ret : MRet Res := @OK.
#[global] Instance Res_bind : MBind Res := λ A B k r, res_bind r k.

(** JS numbers are IEEE-754 doubles: [float]. *)
Abbreviation number := float (only parsing).

(** The double nearest to a natural number (exact below [2^53]). *)
Definition number_of_N (n : N) : number :=
  SF2Prim (binary_normalize prec emax (Z.of_N n) 0 false).

(** [x === 0] on numbers: true of both zeros, false of [NaN]. *)
Definition is_zero (x : number) : bool := (x =? 0)%float.

(** [Math.round]: the integer nearest to [x], ties going up. *)
Definition Math_round (x : Q) : Z := Qfloor (x + (1 # 2))%Q.

(** ** Data model *)

Abbreviation Category := string (only parsing).

(** A labelled sample [{input, output}]; [oid] is the identity of the JS
  object. *)
Record Sample := {
  oid : nat;
  input : string;
  output : Category;
}.

(** The names of the members every plain object inherits from
  [Object.prototype]. *)
Definition Object_prototype_keys : list string :=
  ["constructor"; "__defineGetter__"; "__defineSetter__"; "hasOwnProperty";
   "__lookupGetter__"; "__lookupSetter__"; "isPrototypeOf";
   "propertyIsEnumerable"; "toString"; "valueOf"; "__proto__";
   "toLocaleString"].

(** Whether [obj[key]] on a plain object without such a property reads a
  member of [Object.prototype]. *)
Definition inherited (key : string) : bool :=
  existsb (String.eqb key) Object_prototype_keys.

(** SameValueZero on two objects is reference identity. *)
Definition same_object (a b : Sample) : bool := Nat.eqb (oid a) (oid b).

(** [arr.includes(x)]. *)
Definition includes (arr : list Sample) (x : Sample) : bool :=
  existsb (same_object x) arr.

(** One entry of the result of [getCategoryPartition]. *)
Module Counts.
Record t := { overall : nat; test : nat; train : nat }.
Definition zero : t := {| overall := 0; test := 0; train := 0 |}.
Definition incr_overall (c : t) : t :=
  {| overall := S (overall c); test := test c; train := train c |}.
Definition incr_train (c : t) : t :=
  {| overall := overall c; test := test c; train := S (train c) |}.
Definition incr_test (c : t) : t :=
  {| overall := overall c; test := S (test c); train := train c |}.
End Counts.

(** limdu's [PrecisionRecall] accumulator, as far as [index.js] reads it.
  The four ratios exist only once [calculateStats] has run ([None] is
  [undefined]). *)
Module PrecisionRecall.
Record t := {
  count : number;
  TP : number;
  TN : number;
  FP : number;
  FN : number;
  confusion : gmap string (gmap string number);
  Precision : option number;
  Accuracy : option number;
  Recall : option number;
  F1 : option number;
}.
End PrecisionRecall.

(** The report returned by [getStats]. *)
Module Stats.
Record t := {
  TP : number;
  TN : number;
  FP : number;
  FN : number;
  confusion : gmap string (gmap string number);
  Precision : option number;
  Accuracy : option number;
  Recall : option number;
  F1 : option number;
  Specificity : number;
  totalCount : number;
  trainCount : nat;
  testCount : nat;
  categoryPartition : gmap string Counts.t;
}.
End Stats.

(** The fields of a Learner; [C] is the type of classifier states.
  [macroAvg] and [microAvg] are absent until [crossValidate] (or
  [fromJSON]) sets them. *)
Module Learner.
Record t (C : Type) := {
  dataset : list Sample;
  trainSplit : Q;
  trainSet : list Sample;
  testSet : list Sample;
  classifier : C;
  classifierBuilder : unit → C;
  macroAvg : option PrecisionRecall.t;
  microAvg : option PrecisionRecall.t;
}.
Arguments dataset {C} _.
Arguments trainSplit {C} _.
Arguments trainSet {C} _.
Arguments testSet {C} _.
Arguments classifier {C} _.
Arguments classifierBuilder {C} _.
Arguments macroAvg {C} _.
Arguments microAvg {C} _.
End Learner.

(** The plain object produced by [toJSON] and read by [fromJSON]; a field
  that is [None] is a property the object does not have. Properties
  outside this list are ignored by [fromJSON]. *)
Module Json.
Record t (C : Type) := {
  classifier : option string;
  classifierBuilder : option (unit → C);
  dataset : option (list Sample);
  trainSplit : option Q;
  trainSet : option (list Sample);
  testSet : option (list Sample);
  macroAvg : option PrecisionRecall.t;
  microAvg : option PrecisionRecall.t;
}.
Arguments classifier {C} _.
Arguments classifierBuilder {C} _.
Arguments dataset {C} _.
Arguments trainSplit {C} _.
Arguments trainSet {C} _.
Arguments testSet {C} _.
Arguments macroAvg {C} _.
Arguments microAvg {C} _.
End Json.

(** The options bag of the constructor; [None] is an omitted option. *)
Module Opts.
Record t (C : Type) := {
  dataset : option (list Sample);
  trainSplit : option Q;
  classifier : option (unit → C);
}.
Arguments dataset {C} _.
Arguments trainSplit {C} _.
Arguments classifier {C} _.
End Opts.

(** ** Collaborators *)

(** The classifier contract: [trainBatch] mutates the classifier (here:
  yields its next state), [classify] reads it. *)
Class Classifier (C : Type) := {
  trainBatch : C → list Sample → C;
  classify : C → string → Category;
}.

(** The serialization package: [toString(classifier, builder)] and
  [fromString(string, __dirname)]; the argument of [fromString] is [None]
  when the caller passes [undefined]. *)
Class Serialization (C : Type) := {
  toString : C → (unit → C) → string;
  fromString : option string → Res C;
}.

(** The train-test-split package. It may shuffle: [Entropy] stands for the
  random choices of one call. *)
Class Splitter (Entropy : Type) := {
  trainTestSplit : Entropy → list Sample → Q → Res (list Sample * list Sample);
}.

(** limdu's utilities. [PR_new] is [new PrecisionRecall()]; [addCases]
  feeds one (predicted, actual) pair into an accumulator; [addFold] adds
  the statistics of the pairs of one fold to the macro accumulator;
  [partitions] is the sequence of [(trainSet, testSet)] pairs that
  [partitions.partitions(dataset, numOfPartitions, callback)] hands to its
  callback, in order. *)
Class Limdu (Entropy : Type) := {
  FullStats : Type;
  PR_new : PrecisionRecall.t;
  addCases : PrecisionRecall.t → Category * Category → PrecisionRecall.t;
  addFold : PrecisionRecall.t → list (Category * Category) → PrecisionRecall.t;
  calculateStats : PrecisionRecall.t → PrecisionRecall.t;
  calculateMacroAverageStats : nat → PrecisionRecall.t → PrecisionRecall.t;
  fullStats : PrecisionRecall.t → FullStats;
  partitions : Entropy → list Sample → nat → list (list Sample * list Sample);
}.

(** The object returned by [crossValidate]. *)
Module CrossValidation.
Record t (F : Type) := { macroAvg : F; microAvg : F }.
Arguments macroAvg {F} _.
Arguments microAvg {F} _.
End CrossValidation.

(** A promise: pending until the first [resolve] or [reject]; later calls
  of either are ignored. *)
Inductive Promise (A : Type) :=
| Pending
| Fulfilled (a : A)
| Rejected (e : JsError).
Arguments Pending {A}.
Arguments Fulfilled {A} a.
Arguments Rejected {A} e.

Definition resolve {A} (a : A) (p : Promise A) : Promise A :=
  match p with Pending => Fulfilled a | _ => p end.

Definition reject {A} (e : JsError) (p : Promise A) : Promise A :=
  match p with Pending => Rejected e | _ => p end.

(** What is left once the callback of an [fs] call has run: the promise,
  and the exception that escaped the callback, if any (it is thrown inside
  the [fs] callback, where no promise catches it). *)
Module Settled.
Record t (A : Type) := { promise : Promise A; uncaught : option JsError }.
Arguments promise {A} _.
Arguments uncaught {A} _.
End Settled.

(** ** The Learner class *)

Section LearnerClass.

Context {C Entropy : Type}.
Context `{!Classifier C, !Serialization C, !Splitter Entropy, !Limdu Entropy}.

(** The modules [index.js] requires from the repository: the default
  dataset [require('./src/conv')('io')], the default builder
  [require('./src/classifier')] and the list of categories
  [require('./src/categories')]. *)
Variable labelDS : list Sample.
Variable classifierBuilder : unit → C.
Variable categories : list Category.

(** Calls made to the collaborators, in order. *)
Inductive Event :=
| EvTrainBatch (before : C) (trainSet : list Sample)
| EvTest (clf : C) (testSet : list Sample) (verbosity : Z)
    (pairs : list (Category * Category))
| EvCalculateMacroAverageStats (numOfSets : nat)
| EvCalculateStats
| EvFromString (s : option string)
| EvWriteFile (file data : string)
| EvReadFile (file : string).

Record St := { this : Learner.t C; calls : list Event }.

(** State and exceptions: a thrown error keeps the state reached so far. *)
Definition M (A : Type) : Type := St → Res A * St.

Definition M_ret {A} (a : A) : M A := λ st, (OK a, st).

Definition M_bind {A B} (m : M A) (k : A → M B) : M B := λ st,
  match m st with
  | (OK a, st') => k a st'
  | (Throw e, st') => (Throw e, st')
  end.

#[local] Instance M_mret : MRet M := @M_ret.
#[local] Instance M_mbind : MBind M := λ A B k m, M_bind m k.

Definition throw {A} (e : JsError) : M A := λ st, (Throw e, st).

(** The outcome of a call to a collaborator that may throw. *)
Definition lift_res {A} (r : Res A) : M A := λ st, (r, st).

(** Running [m] where nothing catches what it throws: the outcome is
  observed, the state it reached is kept. *)
Definition attempt {A} (m : M A) : M (Res A) := λ st,
  let '(r, st') := m st in (OK r, st').

Definition get_this : M (Learner.t C) := λ st, (OK (this st), st).

Definition set_this (l : Learner.t C) : M unit := λ st,
  (OK (), {| this := l; calls := calls st |}).

Definition emit (ev : Event) : M unit := λ st,
  (OK (), {| this := this st; calls := calls st ++ [ev] |}).

(** [o.m(...)] on a field that may be [undefined]. *)
Definition defined {A} (o : option A) (msg : string) : M A :=
  match o with Some a => mret a | None => throw (TypeError msg) end.

(** [arr.forEach(f)], the callback running in [M]. *)
Fixpoint forEach {A} (f : A → M unit) (arr : list A) : M unit :=
  match arr with
  | [] => mret ()
  | x :: rest => f x ≫= λ _, forEach f rest
  end.

(** Field assignments. *)
Definition with_classifier (c : C) (l : Learner.t C) : Learner.t C :=
  {| Learner.dataset := Learner.dataset l;
     Learner.trainSplit := Learner.trainSplit l;
     Learner.trainSet := Learner.trainSet l;
     Learner.testSet := Learner.testSet l;
     Learner.classifier := c;
     Learner.classifierBuilder := Learner.classifierBuilder l;
     Learner.macroAvg := Learner.macroAvg l;
     Learner.microAvg := Learner.microAvg l |}.

Definition with_macroAvg (a : option PrecisionRecall.t) (l : Learner.t C) :
    Learner.t C :=
  {| Learner.dataset := Learner.dataset l;
     Learner.trainSplit := Learner.trainSplit l;
     Learner.trainSet := Learner.trainSet l;
     Learner.testSet := Learner.testSet l;
     Learner.classifier := Learner.classifier l;
     Learner.classifierBuilder := Learner.classifierBuilder l;
     Learner.macroAvg := a;
     Learner.microAvg := Learner.microAvg l |}.

Definition with_microAvg (a : option PrecisionRecall.t) (l : Learner.t C) :
    Learner.t C :=
  {| Learner.dataset := Learner.dataset l;
     Learner.trainSplit := Learner.trainSplit l;
     Learner.trainSet := Learner.trainSet l;
     Learner.testSet := Learner.testSet l;
     Learner.classifier := Learner.classifier l;
     Learner.classifierBuilder := Learner.classifierBuilder l;
     Learner.macroAvg := Learner.macroAvg l;
     Learner.microAvg := a |}.

(** *** constructor *)

(** [new Learner({dataset, trainSplit, classifier})]: every option has a
  default; the split is computed at once. *)
Definition new_Learner (rng : Entropy) (opts : Opts.t C) : Res (Learner.t C) :=
  let dataset := default labelDS (Opts.dataset opts) in
  let trainSplit := default (4 # 5)%Q (Opts.trainSplit opts) in
  let classifier := default classifierBuilder (Opts.classifier opts) in
  '(train, _test) ← trainTestSplit rng dataset trainSplit;
  OK {| Learner.dataset := dataset;
        Learner.trainSplit := trainSplit;
        Learner.trainSet := train;
        Learner.testSet := _test;
        Learner.classifier := classifier ();
        Learner.classifierBuilder := classifier;
        Learner.macroAvg := None;
        Learner.microAvg := None |}.

(** *** train, classify *)

(** [train(trainSet = this.trainSet)]; the spinner is cosmetic. *)
Definition train (trainSet : option (list Sample)) : M unit :=
  l ← get_this;
  let trainSet := default (Learner.trainSet l) trainSet in
  emit (EvTrainBatch (Learner.classifier l) trainSet);;
  set_this (with_classifier (trainBatch (Learner.classifier l) trainSet) l).

Definition Learner_classify (data : string) : M Category :=
  l ← get_this; mret (classify (Learner.classifier l) data).

(** *** serialization of the classifier *)

Definition serializeClassifier : M string :=
  l ← get_this;
  mret (toString (Learner.classifier l) (Learner.classifierBuilder l)).

Definition deserializeClassifier (serializedClassifier : option string) : M C :=
  emit (EvFromString serializedClassifier);;
  lift_res (fromString serializedClassifier).

(** [serializeAndSaveClassifier(file = 'classifier.json')]; [err] is what
  [writeFile] passes to its callback ([None] for [null]). The callback has
  no [return] after [reject(err)]: [resolve(data)] runs in both cases. *)
Definition serializeAndSaveClassifier (file : string) (err : option JsError) :
    M (Settled.t string) :=
  data ← serializeClassifier;
  emit (EvWriteFile file data);;
  let p := Pending in
  let p := match err with Some e => reject e p | None => p end in
  let p := resolve data p in
  mret {| Settled.promise := p; Settled.uncaught := None |}.

(** [loadAndDeserializeClassifier(file = 'classifier.json')]; [err] and
  [data] are what [readFile] passes to its callback: [(null, contents)] on
  success, [(error, undefined)] on failure. The callback has no [return]
  after [reject(err)]: the deserialization runs in both cases, and what it
  throws escapes the callback. *)
Definition loadAndDeserializeClassifier (file : string)
    (err : option JsError) (data : option string) : M (Settled.t C) :=
  emit (EvReadFile file);;
  let p := Pending in
  let p := match err with Some e => reject e p | None => p end in
  r ← attempt (deserializeClassifier data);
  mret match r with
       | OK classifier =>
           {| Settled.promise := resolve classifier p;
              Settled.uncaught := None |}
       | Throw e => {| Settled.promise := p; Settled.uncaught := Some e |}
       end.

(** *** crossValidate *)

(** The (predicted, actual) pairs of a test set. *)
Definition predictions (clf : C) (testSet : list Sample) :
    list (Category * Category) :=
  map (λ s, (classify clf (input s), output s)) testSet.

(** Modelled from the spec: limdu's [test(classifier, testSet, verbosity,
  microAverage, macroSum)] is not part of the sources. It classifies every
  sample of the test set and feeds each (predicted, actual) pair into the
  micro accumulator, and the pairs of this fold, as one fold-local bucket,
  into the macro accumulator; an accumulator that is [undefined] is
  skipped. *)
Definition test (clf : C) (testSet : list Sample) (verbosity : Z)
    (microAverage macroSum : option PrecisionRecall.t) :
    option PrecisionRecall.t * option PrecisionRecall.t :=
  let pairs := predictions clf testSet in
  (fold_left addCases pairs <$> microAverage,
   (λ acc, addFold acc pairs) <$> macroSum).

(** The callback given to [partitions.partitions]; the progress line of
  [log] is cosmetic. *)
Definition onPartition (verboseLevel : Z)
    (split : list Sample * list Sample) : M unit :=
  let '(trainSet, testSet) := split in
  train (Some trainSet);;
  l ← get_this;
  emit (EvTest (Learner.classifier l) testSet verboseLevel
          (predictions (Learner.classifier l) testSet));;
  let '(micro, macro) :=
    test (Learner.classifier l) testSet verboseLevel
      (Learner.microAvg l) (Learner.macroAvg l) in
  set_this (with_macroAvg macro (with_microAvg micro l)).

(** [crossValidate(numOfFolds = 5, verboseLevel = 0, log = false)]. The
  two accumulators are objects that [test] and the final calculations
  update in place: here the fields are re-assigned. *)
Definition crossValidate (rng : Entropy) (numOfFolds : nat)
    (verboseLevel : Z) (log : bool) : M (CrossValidation.t FullStats) :=
  l ← get_this;
  set_this (with_macroAvg (Some PR_new) l);;
  l ← get_this;
  set_this (with_microAvg (Some PR_new) l);;
  l ← get_this;
  forEach (onPartition verboseLevel)
    (partitions rng (Learner.dataset l) numOfFolds);;
  l ← get_this;
  macro ← defined (Learner.macroAvg l)
    "Cannot read properties of undefined (reading 'calculateMacroAverageStats')";
  emit (EvCalculateMacroAverageStats numOfFolds);;
  set_this (with_macroAvg (Some (calculateMacroAverageStats numOfFolds macro)) l);;
  l ← get_this;
  micro ← defined (Learner.microAvg l)
    "Cannot read properties of undefined (reading 'calculateStats')";
  emit EvCalculateStats;;
  set_this (with_microAvg (Some (calculateStats micro)) l);;
  l ← get_this;
  macro ← defined (Learner.macroAvg l)
    "Cannot read properties of undefined (reading 'fullStats')";
  micro ← defined (Learner.microAvg l)
    "Cannot read properties of undefined (reading 'fullStats')";
  mret {| CrossValidation.macroAvg := fullStats macro;
          CrossValidation.microAvg := fullStats micro |}.

(** *** toJSON, fromJSON *)

Definition toJSON : M (Json.t C) :=
  classifier ← serializeClassifier;
  l ← get_this;
  mret {| Json.classifier := Some classifier;
          Json.classifierBuilder := Some (Learner.classifierBuilder l);
          Json.dataset := Some (Learner.dataset l);
          Json.trainSplit := Some (Learner.trainSplit l);
          Json.trainSet := Some (Learner.trainSet l);
          Json.testSet := Some (Learner.testSet l);
          Json.macroAvg := Learner.macroAvg l;
          Json.microAvg := Learner.microAvg l |}.

(** The loop over the properties of [json]: those of [ALLOWED_PROPS] that
  [json] has are copied; [dataset] and [trainSplit] are not in the list. *)
Definition copy_allowed (json : Json.t C) (newLearner : Learner.t C) :
    Learner.t C :=
  {| Learner.dataset := Learner.dataset newLearner;
     Learner.trainSplit := Learner.trainSplit newLearner;
     Learner.trainSet :=
       default (Learner.trainSet newLearner) (Json.trainSet json);
     Learner.testSet :=
       default (Learner.testSet newLearner) (Json.testSet json);
     Learner.classifier := Learner.classifier newLearner;
     Learner.classifierBuilder :=
       default (Learner.classifierBuilder newLearner)
         (Json.classifierBuilder json);
     Learner.macroAvg :=
       match Json.macroAvg json with
       | Some a => Some a
       | None => Learner.macroAvg newLearner
       end;
     Learner.microAvg :=
       match Json.microAvg json with
       | Some a => Some a
       | None => Learner.microAvg newLearner
       end |}.

(** [Learner.fromJSON(json)]: the result, and the calls it made. *)
Definition fromJSON (rng : Entropy) (json : Json.t C) :
    Res (Learner.t C) * list Event :=
  match new_Learner rng {| Opts.dataset := Json.dataset json;
                           Opts.trainSplit := Json.trainSplit json;
                           Opts.classifier := None |} with
  | Throw e => (Throw e, [])
  | OK newLearner =>
      let newLearner := copy_allowed json newLearner in
      match deserializeClassifier (Json.classifier json)
              {| this := newLearner; calls := [] |} with
      | (OK c, st) => (OK (with_classifier c (this st)), calls st)
      | (Throw e, st) => (Throw e, calls st)
      end
  end.

(** *** getCategoryPartition, getStats *)

(** [++res[key].field], where [res] started as [{}] and maps a key to the
  counts object that [res[key]] reads. When [res] has no counts object for
  [key], the lookup goes on to [Object.prototype]: for one of its member
  names [res[key]] is that built-in member, the increment lands on it (as
  [NaN]) and [res] is as before; for any other key [res[key]] is
  [undefined], or a number when a member of that name has been planted on
  [Object.prototype], and the statement throws a [TypeError] (a class body
  is strict code). *)
Definition bump (f : Counts.t → Counts.t) (key : Category)
    (res : gmap string Counts.t) : Res (gmap string Counts.t) :=
  match res !! key with
  | Some c => OK (<[key := f c]> res)
  | None =>
      if inherited key then OK res
      else Throw (TypeError "Cannot read properties of undefined")
  end.

(** The body of the loop over the dataset. *)
Definition countSample (l : Learner.t C) (res : gmap string Counts.t)
    (data : Sample) : Res (gmap string Counts.t) :=
  res ← bump Counts.incr_overall (output data) res;
  res ← (if includes (Learner.trainSet l) data
         then bump Counts.incr_train (output data) res else OK res);
  if includes (Learner.testSet l) data
  then bump Counts.incr_test (output data) res else OK res.

Fixpoint countSamples (l : Learner.t C) (res : gmap string Counts.t)
    (ds : list Sample) : Res (gmap string Counts.t) :=
  match ds with
  | [] => OK res
  | data :: rest => res ← countSample l res data; countSamples l res rest
  end.

(** The first loop: one zeroed entry per category. *)
Definition initCounts : gmap string Counts.t :=
  fold_left (λ res cat, <[cat := Counts.zero]> res) categories ∅.

Definition getCategoryPartition : M (gmap string Counts.t) :=
  l ← get_this;
  lift_res (countSamples l initCounts (Learner.dataset l)).

Definition getStats : M Stats.t :=
  l ← get_this;
  microAvg ← defined (Learner.microAvg l)
    "Cannot destructure property 'TP' of 'this.microAvg' as it is undefined.";
  let Specificity :=
    (PrecisionRecall.TN microAvg /
       (PrecisionRecall.FP microAvg + PrecisionRecall.TN microAvg))%float in
  categoryPartition ← getCategoryPartition;
  mret {| Stats.TP := PrecisionRecall.TP microAvg;
          Stats.TN := PrecisionRecall.TN microAvg;
          Stats.FP := PrecisionRecall.FP microAvg;
          Stats.FN := PrecisionRecall.FN microAvg;
          Stats.confusion := PrecisionRecall.confusion microAvg;
          Stats.Precision := PrecisionRecall.Precision microAvg;
          Stats.Accuracy := PrecisionRecall.Accuracy microAvg;
          Stats.Recall := PrecisionRecall.Recall microAvg;
          Stats.F1 := PrecisionRecall.F1 microAvg;
          Stats.Specificity := Specificity;
          Stats.totalCount := PrecisionRecall.count microAvg;
          Stats.trainCount := length (Learner.trainSet l);
          Stats.testCount := length (Learner.testSet l);
          Stats.categoryPartition := categoryPartition |}.

End LearnerClass.

Arguments EvTrainBatch {C} before trainSet.
Arguments EvTest {C} clf testSet verbosity pairs.
Arguments EvCalculateMacroAverageStats {C} numOfSets.
Arguments EvCalculateStats {C}.
Arguments EvFromString {C} s.
Arguments EvWriteFile {C} file data.
Arguments EvReadFile {C} file.
Arguments this {C} _.
Arguments calls {C} _.

(** ** Vocabulary of the specification *)

(** No object of [tr] is an object of [te]. *)
Definition disjoint_by_identity (tr te : list Sample) : Prop :=
  ∀ a b, a ∈ tr → b ∈ te → oid a ≠ oid b.

(** Every object of [ds] is an object of [tr] or of [te]. *)
Definition covers (tr te ds : list Sample) : Prop :=
  ∀ d, d ∈ ds → ∃ x, x ∈ tr ++ te ∧ oid x = oid d.

(** The dataset contract: every output is one of the categories. *)
Definition outputs_in (categories : list Category) (ds : list Sample) : Prop :=
  ∀ d, d ∈ ds → output d ∈ categories.

(** The entry of every key satisfies [overall = train + test]. *)
Definition balanced (res : gmap string Counts.t) : Prop :=
  ∀ key c, res !! key = Some c →
    Counts.overall c = Counts.train c + Counts.test c.

(** The sum of the [overall] counts over the keys of [res]. *)
Definition total_overall (res : gmap string Counts.t) : nat :=
  map_fold (λ _ c acc, Counts.overall c + acc) 0 res.

(** What one iteration of the dataset loop does to the entry of the
  sample's category. *)
Definition tally (inTrain inTest : bool) (c : Counts.t) : Counts.t :=
  let c := Counts.incr_overall c in
  let c := if inTrain then Counts.incr_train c else c in
  if inTest then Counts.incr_test c else c.

Section Contracts.

Context {C Entropy : Type}.
Context `{!Classifier C, !Serialization C, !Splitter Entropy, !Limdu Entropy}.

(** Modelled from the spec: the train-test-split package is not part of
  the sources. For a dataset of distinct objects and a ratio in (0,1),
  [split(dataset, ratio)] returns [(trainSet, testSet)] with
  [|trainSet| = round(ratio * |dataset|)], the two sizes adding up to
  [|dataset|], and no object in both. *)
Definition split_contract : Prop :=
  ∀ (rng : Entropy) (D : list Sample) (r : Q),
    NoDup (oid <$> D) → (0 < r)%Q → (r < 1)%Q →
    ∃ tr te, trainTestSplit rng D r = OK (tr, te)
      ∧ length tr + length te = length D
      ∧ Z.of_nat (length tr) = Math_round (r * inject_Z (Z.of_nat (length D)))
      ∧ disjoint_by_identity tr te.

(** Modelled from the spec: the serialization package is not part of the
  sources. Data that is not a serialized classifier is a
  [DeserializationFailure]; [undefined] is such data. *)
Definition rejects_undefined : Prop :=
  ∃ e, fromString (C:=C) None = Throw e.

(** Modelled from the spec: limdu's [partitions.partitions] is not part of
  the sources. [kFold(dataset, k)] yields a sequence of [k] splits. *)
Definition yields_k_folds (rng : Entropy) (D : list Sample) (k : nat) : Prop :=
  length (partitions rng D k) = k.

(** The cross-validation state machine of the specification: the state
  carried from one fold to the next is the classifier and the two
  accumulators. *)
Record CVState := { cv_clf : C; cv_micro : PrecisionRecall.t;
                    cv_macro : PrecisionRecall.t }.

(** Before the first fold: the Learner's classifier and two new
  accumulators. *)
Definition cv_init (l : Learner.t C) : CVState :=
  {| cv_clf := Learner.classifier l; cv_micro := PR_new; cv_macro := PR_new |}.

(** One fold: train on the fold's training subset, classify its test
  subset, feed every (predicted, actual) pair into both accumulators. *)
Definition cv_step (s : CVState) (split : list Sample * list Sample) : CVState :=
  let clf := trainBatch (cv_clf s) split.1 in
  let pairs := predictions clf split.2 in
  {| cv_clf := clf;
     cv_micro := fold_left addCases pairs (cv_micro s);
     cv_macro := addFold (cv_macro s) pairs |}.

Definition cv_fold (s : CVState) (splits : list (list Sample * list Sample)) :
    CVState :=
  fold_left cv_step splits s.

(** The two calls of one pass. *)
Definition cv_pass (verbosity : Z) (s : CVState)
    (split : list Sample * list Sample) : list (Event (C:=C)) :=
  let clf := trainBatch (cv_clf s) split.1 in
  [EvTrainBatch (cv_clf s) split.1;
   EvTest clf split.2 verbosity (predictions clf split.2)].

(** The passes of a run, one per split, in order. *)
Fixpoint cv_passes (verbosity : Z) (s : CVState)
    (splits : list (list Sample * list Sample)) : list (list (Event (C:=C))) :=
  match splits with
  | [] => []
  | split :: rest =>
      cv_pass verbosity s split :: cv_passes verbosity (cv_step s split) rest
  end.

(** The Learner whose classifier and accumulators are those of [s]. *)
Definition with_cv_state (s : CVState) (l : Learner.t C) : Learner.t C :=
  {| Learner.dataset := Learner.dataset l;
     Learner.trainSplit := Learner.trainSplit l;
     Learner.trainSet := Learner.trainSet l;
     Learner.testSet := Learner.testSet l;
     Learner.classifier := cv_clf s;
     Learner.classifierBuilder := Learner.classifierBuilder l;
     Learner.macroAvg := Some (cv_macro s);
     Learner.microAvg := Some (cv_micro s) |}.

(** After the last fold: the two final calculations. *)
Definition cv_finish (k : nat) (s : CVState) : CVState :=
  {| cv_clf := cv_clf s;
     cv_micro := calculateStats (cv_micro s);
     cv_macro := calculateMacroAverageStats k (cv_macro s) |}.

(** The classifier states with which the [trainBatch] calls of a log were
  entered, in order. *)
Definition entering_states (log : list (Event (C:=C))) : list C :=
  omap (λ ev, match ev with EvTrainBatch c _ => Some c | _ => None end) log.

(** C2 as the specification words it: after [crossValidate] the Learner
  holds the subsets of one of the folds. *)
Definition holds_fold_partition (l : Learner.t C)
    (splits : list (list Sample * list Sample)) : Prop :=
  ∃ split, split ∈ splits
    ∧ Learner.trainSet l = split.1 ∧ Learner.testSet l = split.2.

(** C5 as the specification words it: every training call is entered with
  a freshly built classifier. *)
Definition trains_fresh (builder : unit → C) (log : list (Event (C:=C))) :
    Prop :=
  ∀ c, c ∈ entering_states log → c = builder ().

End Contracts.

(** Boolean forms of the predicates on datasets. *)
Definition disjointb (tr te : list Sample) : bool :=
  forallb (λ a, forallb (λ b, negb (same_object a b)) te) tr.

Definition coversb (tr te ds : list Sample) : bool :=
  forallb (λ d, includes tr d || includes te d) ds.

Definition outputs_inb (categories : list Category) (ds : list Sample) : bool :=
  forallb (λ d, existsb (String.eqb (output d)) categories) ds.

(** ** A small instance of the collaborators

  A classifier that memorises the samples it was trained on, a splitter
  that cuts the dataset after the first [round(r * n)] samples, contiguous
  folds, and accumulators that count hits and misses. They are used to run
  the Learner on concrete data. *)

Module Fixture.

(** The memory of the classifier: the (input, output) rows seen so far. *)
Definition Memo : Type := list (string * Category).

Definition memo_classify (c : Memo) (x : string) : Category :=
  match find (λ row, String.eqb row.1 x) c with
  | Some row => row.2
  | None => EmptyString
  end.

#[global] Instance memo_classifier : Classifier Memo := {|
  trainBatch c ds := c ++ map (λ s, (input s, output s)) ds;
  classify := memo_classify;
|}.

(** Rows are written [input=output;]. *)
Fixpoint encode (c : Memo) : string :=
  match c with
  | [] => EmptyString
  | (i, o) :: rest => i +:+ "=" +:+ o +:+ ";" +:+ encode rest
  end.

Fixpoint decode (s : string) (key : option string) (cur : string) : Memo :=
  match s with
  | EmptyString => []
  | String ch rest =>
      if Ascii.eqb ch "="%char then decode rest (Some cur) EmptyString
      else if Ascii.eqb ch ";"%char then
        match key with
        | Some k => (k, cur) :: decode rest None EmptyString
        | None => decode rest None EmptyString
        end
      else decode rest key (cur +:+ String ch EmptyString)
  end.

#[global] Instance memo_serialization : Serialization Memo := {|
  toString c _ := encode c;
  fromString s :=
    match s with
    | Some s => OK (decode s None EmptyString)
    | None => Throw (ExtError "SyntaxError: undefined is not valid JSON")
    end;
|}.

Definition Qlt_bool (x y : Q) : bool := negb (Qle_bool y x).

(** The first [round(r * n)] samples are the training set. *)
Definition prefix_split (D : list Sample) (r : Q) :
    Res (list Sample * list Sample) :=
  if Qlt_bool 0 r && Qlt_bool r 1 then
    let n := Z.to_nat (Math_round (r * inject_Z (Z.of_nat (length D)))) in
    OK (take n D, drop n D)
  else Throw (ExtError "InvalidRatio").

#[global] Instance prefix_splitter : Splitter unit := {|
  trainTestSplit _ := prefix_split;
|}.

Definition pr_zero : PrecisionRecall.t :=
  {| PrecisionRecall.count := 0; PrecisionRecall.TP := 0;
     PrecisionRecall.TN := 0; PrecisionRecall.FP := 0;
     PrecisionRecall.FN := 0; PrecisionRecall.confusion := ∅;
     PrecisionRecall.Precision := None; PrecisionRecall.Accuracy := None;
     PrecisionRecall.Recall := None; PrecisionRecall.F1 := None |}.

(** A hit is a true positive; a miss is a false positive of the predicted
  label and a false negative of the actual one. *)
Definition pr_addCases (pr : PrecisionRecall.t) (pair : Category * Category) :
    PrecisionRecall.t :=
  let hit := String.eqb pair.1 pair.2 in
  {| PrecisionRecall.count := (PrecisionRecall.count pr + 1)%float;
     PrecisionRecall.TP :=
       if hit then (PrecisionRecall.TP pr + 1)%float else PrecisionRecall.TP pr;
     PrecisionRecall.TN := PrecisionRecall.TN pr;
     PrecisionRecall.FP :=
       if hit then PrecisionRecall.FP pr else (PrecisionRecall.FP pr + 1)%float;
     PrecisionRecall.FN :=
       if hit then PrecisionRecall.FN pr else (PrecisionRecall.FN pr + 1)%float;
     PrecisionRecall.confusion := PrecisionRecall.confusion pr;
     PrecisionRecall.Precision := PrecisionRecall.Precision pr;
     PrecisionRecall.Accuracy := PrecisionRecall.Accuracy pr;
     PrecisionRecall.Recall := PrecisionRecall.Recall pr;
     PrecisionRecall.F1 := PrecisionRecall.F1 pr |}.

Definition pr_calculateStats (pr : PrecisionRecall.t) : PrecisionRecall.t :=
  let P := (PrecisionRecall.TP pr
            / (PrecisionRecall.TP pr + PrecisionRecall.FP pr))%float in
  let R := (PrecisionRecall.TP pr
            / (PrecisionRecall.TP pr + PrecisionRecall.FN pr))%float in
  {| PrecisionRecall.count := PrecisionRecall.count pr;
     PrecisionRecall.TP := PrecisionRecall.TP pr;
     PrecisionRecall.TN := PrecisionRecall.TN pr;
     PrecisionRecall.FP := PrecisionRecall.FP pr;
     PrecisionRecall.FN := PrecisionRecall.FN pr;
     PrecisionRecall.confusion := PrecisionRecall.confusion pr;
     PrecisionRecall.Precision := Some P;
     PrecisionRecall.Accuracy :=
       Some (PrecisionRecall.TP pr / PrecisionRecall.count pr)%float;
     PrecisionRecall.Recall := Some R;
     PrecisionRecall.F1 := Some (2 / (1 / R + 1 / P))%float |}.

Definition add_ratio (a b : option float) : option float :=
  Some (default 0%float a + default 0%float b)%float.

(** The macro accumulator adds up the statistics of the folds. *)
Definition pr_addFold (macro : PrecisionRecall.t)
    (pairs : list (Category * Category)) : PrecisionRecall.t :=
  let fold := pr_calculateStats (fold_left pr_addCases pairs pr_zero) in
  {| PrecisionRecall.count :=
       (PrecisionRecall.count macro + PrecisionRecall.count fold)%float;
     PrecisionRecall.TP :=
       (PrecisionRecall.TP macro + PrecisionRecall.TP fold)%float;
     PrecisionRecall.TN :=
       (PrecisionRecall.TN macro + PrecisionRecall.TN fold)%float;
     PrecisionRecall.FP :=
       (PrecisionRecall.FP macro + PrecisionRecall.FP fold)%float;
     PrecisionRecall.FN :=
       (PrecisionRecall.FN macro + PrecisionRecall.FN fold)%float;
     PrecisionRecall.confusion := PrecisionRecall.confusion macro;
     PrecisionRecall.Precision :=
       add_ratio (PrecisionRecall.Precision macro) (PrecisionRecall.Precision fold);
     PrecisionRecall.Accuracy :=
       add_ratio (PrecisionRecall.Accuracy macro) (PrecisionRecall.Accuracy fold);
     PrecisionRecall.Recall :=
       add_ratio (PrecisionRecall.Recall macro) (PrecisionRecall.Recall fold);
     PrecisionRecall.F1 :=
       add_ratio (PrecisionRecall.F1 macro) (PrecisionRecall.F1 fold) |}.

(** The macro average divides the sums by the number of folds. *)
Definition pr_macroAverage (k : nat) (pr : PrecisionRecall.t) :
    PrecisionRecall.t :=
  let w := (1 / number_of_N (N.of_nat k))%float in
  let scale x := (x * w)%float in
  {| PrecisionRecall.count := scale (PrecisionRecall.count pr);
     PrecisionRecall.TP := scale (PrecisionRecall.TP pr);
     PrecisionRecall.TN := scale (PrecisionRecall.TN pr);
     PrecisionRecall.FP := scale (PrecisionRecall.FP pr);
     PrecisionRecall.FN := scale (PrecisionRecall.FN pr);
     PrecisionRecall.confusion := PrecisionRecall.confusion pr;
     PrecisionRecall.Precision := scale <$> PrecisionRecall.Precision pr;
     PrecisionRecall.Accuracy := scale <$> PrecisionRecall.Accuracy pr;
     PrecisionRecall.Recall := scale <$> PrecisionRecall.Recall pr;
     PrecisionRecall.F1 := scale <$> PrecisionRecall.F1 pr |}.

(** Contiguous folds of [|D| / k] samples: fold [i] tests on the [i]-th
  block and trains on the rest. *)
Definition contiguous_folds (D : list Sample) (k : nat) :
    list (list Sample * list Sample) :=
  let size := length D / k in
  map (λ i, (take (i * size) D ++ drop (i * size + size) D,
             take size (drop (i * size) D)))
      (seq 0 k).

#[global] Instance counting_limdu : Limdu unit := {|
  FullStats := PrecisionRecall.t;
  PR_new := pr_zero;
  addCases := pr_addCases;
  addFold := pr_addFold;
  calculateStats := pr_calculateStats;
  calculateMacroAverageStats := pr_macroAverage;
  fullStats pr := pr;
  partitions _ := contiguous_folds;
|}.

(** Four samples in two categories. *)
Definition hello : Sample := {| oid := 0; input := "hello"; output := "greet" |}.
Definition hi : Sample := {| oid := 1; input := "hi"; output := "greet" |}.
Definition goodbye : Sample := {| oid := 2; input := "goodbye"; output := "bye" |}.
Definition ciao : Sample := {| oid := 3; input := "ciao"; output := "bye" |}.

Definition categories : list Category := ["greet"; "bye"].
Definition labelDS : list Sample := [hello; hi; goodbye; ciao].
Definition classifierBuilder : unit → Memo := λ _, [].

(** [new Learner({trainSplit: 0.75})] on these. *)
Definition learner : Learner.t Memo :=
  {| Learner.dataset := labelDS;
     Learner.trainSplit := (3 # 4)%Q;
     Learner.trainSet := [hello; hi; goodbye];
     Learner.testSet := [ciao];
     Learner.classifier := [];
     Learner.classifierBuilder := classifierBuilder;
     Learner.macroAvg := None;
     Learner.microAvg := None |}.

Definition fresh : St (C:=Memo) := {| this := learner; calls := [] |}.

(** The state after [learner.crossValidate(2)]. *)
Definition validated : St (C:=Memo) :=
  (crossValidate tt 2 0 false fresh).2.


End Fixture.

(** ** Vocabulary of the further properties *)

(** The number of samples of [ds] that satisfy [p]. *)
Fixpoint count_if (p : Sample → bool) (ds : list Sample) : nat :=
  match ds with
  | [] => 0
  | d :: rest => (if p d then 1 else 0) + count_if p rest
  end.

Definition has_output (cat : Category) (d : Sample) : bool :=
  String.eqb (output d) cat.

(** The census of a category: how many samples of the dataset carry it,
  and how many of those are objects of [trainSet], of [testSet]. *)
Definition census {C} (l : Learner.t C) (cat : Category) : Counts.t :=
  {| Counts.overall := count_if (has_output cat) (Learner.dataset l);
     Counts.test :=
       count_if (λ d, has_output cat d && includes (Learner.testSet l) d)
         (Learner.dataset l);
     Counts.train :=
       count_if (λ d, has_output cat d && includes (Learner.trainSet l) d)
         (Learner.dataset l) |}.

(** Whether the loop of [getCategoryPartition] can read [res[output]] for
  every sample: the output is a category, or names a member of
  [Object.prototype]. *)
Definition readableb (categories : list Category) (ds : list Sample) : bool :=
  forallb (λ d, existsb (String.eqb (output d)) categories
                || inherited (output d)) ds.

(** Whether an optional field is set. *)
Definition is_set {A} (o : option A) : bool :=
  match o with Some _ => true | None => false end.

(** The options [fromJSON] builds its Learner with. *)
Definition opts_of_json {C} (json : Json.t C) : Opts.t C :=
  {| Opts.dataset := Json.dataset json;
     Opts.trainSplit := Json.trainSplit json;
     Opts.classifier := None |}.

(** The object [{classifier: s}]. *)
Definition only_classifier {C} (s : string) : Json.t C :=
  {| Json.classifier := Some s;
     Json.classifierBuilder := None;
     Json.dataset := None;
     Json.trainSplit := None;
     Json.trainSet := None;
     Json.testSet := None;
     Json.macroAvg := None;
     Json.microAvg := None |}.

(** The Learner with other accumulators. *)
Definition with_stats {C} (macro micro : option PrecisionRecall.t)
    (st : St (C:=C)) : St (C:=C) :=
  {| this := with_macroAvg macro (with_microAvg micro (this st));
     calls := calls st |}.

(** A serialization whose deserializer also rejects the empty string. *)
Module Strict.
Definition serialization : Serialization Fixture.Memo := {|
  toString c _ := Fixture.encode c;
  fromString s :=
    match s with
    | Some (String ch rest) =>
        OK (Fixture.decode (String ch rest) None EmptyString)
    | Some EmptyString =>
        Throw (ExtError "SyntaxError: Unexpected end of JSON input")
    | None => Throw (ExtError "SyntaxError: undefined is not valid JSON")
    end;
|}.
End Strict.

(** A classifier that forgets: every [trainBatch] replaces the rows it
  had memorised. *)
Module Retrain.
Definition classifier : Classifier Fixture.Memo := {|
  trainBatch _ ds := map (λ s, (input s, output s)) ds;
  classify := Fixture.memo_classify;
|}.
End Retrain.

(** ** Properties *)

Section Properties.

Context {C Entropy : Type}.
Context `{!Classifier C, !Serialization C, !Splitter Entropy, !Limdu Entropy}.
Variable labelDS : list Sample.
Variable classifierBuilder : unit → C.
Variable categories : list Category.

(** *** getCategoryPartition *)

Lemma includes_true (arr : list Sample) (x : Sample) :
  includes arr x = true ↔ ∃ y, y ∈ arr ∧ oid y = oid x.
Proof.
  unfold includes, same_object. rewrite existsb_exists. split.
  - intros (y & Hy & Heq). exists y. split; [by apply list_elem_of_In|].
    symmetry. by apply Nat.eqb_eq.
  - intros (y & Hy & Heq). exists y. split; [by apply list_elem_of_In|].
    apply Nat.eqb_eq. by symmetry.
Qed.

(** Under disjointness and coverage, a sample of the dataset is found in
  exactly one of the two subsets. *)
Lemma includes_exactly_one (tr te ds : list Sample) (d : Sample) :
  disjoint_by_identity tr te → covers tr te ds → d ∈ ds →
  xorb (includes tr d) (includes te d) = true.
Proof.
  intros Hdisj Hcov Hd.
  destruct (includes tr d) eqn:Htr, (includes te d) eqn:Hte; try reflexivity.
  - apply includes_true in Htr as (a & Ha & Hao).
    apply includes_true in Hte as (b & Hb & Hbo).
    exfalso. apply (Hdisj a b Ha Hb). congruence.
  - destruct (Hcov d Hd) as (x & Hx & Hxo).
    apply elem_of_app in Hx as [Hx | Hx].
    + assert (includes tr d = true) by (apply includes_true; eauto). congruence.
    + assert (includes te d = true) by (apply includes_true; eauto). congruence.
Qed.

Lemma total_overall_empty : total_overall ∅ = 0.
Proof. unfold total_overall. by rewrite map_fold_empty. Qed.

Lemma total_overall_insert_fresh (res : gmap string Counts.t) key c :
  res !! key = None →
  total_overall (<[key := c]> res) = Counts.overall c + total_overall res.
Proof.
  intros Hnone. unfold total_overall.
  apply (map_fold_insert_L (λ _ c acc, Counts.overall c + acc)); [|done].
  intros; lia.
Qed.

Lemma total_overall_update (res : gmap string Counts.t) key c c' :
  res !! key = Some c →
  total_overall (<[key := c']> res) + Counts.overall c
  = total_overall res + Counts.overall c'.
Proof.
  intros Hsome.
  rewrite <- (insert_delete_id res key c Hsome) at 2.
  rewrite <- (insert_delete_eq res key c').
  rewrite !total_overall_insert_fresh by apply lookup_delete_eq. lia.
Qed.

Lemma bump_Some f key (res : gmap string Counts.t) c :
  res !! key = Some c → bump f key res = OK (<[key := f c]> res).
Proof. intros Hsome. unfold bump. by rewrite Hsome. Qed.

(** One iteration, when the category of the sample has an entry. *)
Lemma countSample_Some (l : Learner.t C) (res : gmap string Counts.t) data c :
  res !! output data = Some c →
  countSample l res data
  = OK (<[output data :=
            tally (includes (Learner.trainSet l) data)
                  (includes (Learner.testSet l) data) c]> res).
Proof.
  intros Hsome. unfold countSample, tally.
  rewrite (bump_Some _ _ _ c Hsome). cbn.
  destruct (includes (Learner.trainSet l) data),
           (includes (Learner.testSet l) data); cbn;
    repeat (erewrite bump_Some by apply lookup_insert_eq; cbn);
    rewrite ?insert_insert_eq; reflexivity.
Qed.

Lemma tally_balanced inTrain inTest c :
  xorb inTrain inTest = true →
  Counts.overall c = Counts.train c + Counts.test c →
  Counts.overall (tally inTrain inTest c)
  = Counts.train (tally inTrain inTest c) + Counts.test (tally inTrain inTest c).
Proof. destruct inTrain, inTest; cbn; intros; try discriminate; lia. Qed.

Lemma tally_overall inTrain inTest c :
  Counts.overall (tally inTrain inTest c) = S (Counts.overall c).
Proof. by destruct inTrain, inTest. Qed.

(** The loop over the dataset: it cannot throw when every category met has
  an entry, it keeps the keys, keeps the entries balanced and adds one to
  the total per sample. *)
Lemma countSamples_spec (l : Learner.t C) (ds : list Sample) :
  ∀ res : gmap string Counts.t,
  (∀ d, d ∈ ds → is_Some (res !! output d)) →
  (∀ d, d ∈ ds →
     xorb (includes (Learner.trainSet l) d) (includes (Learner.testSet l) d)
     = true) →
  balanced res →
  ∃ res', countSamples l res ds = OK res'
    ∧ balanced res'
    ∧ dom res' = dom res
    ∧ total_overall res' = total_overall res + length ds.
Proof.
  induction ds as [|data rest IH]; intros res Hkeys Hone Hbal.
  - exists res. cbn. repeat split; [done | lia].
  - destruct (Hkeys data) as [c Hc]; [left|].
    set (c' := tally (includes (Learner.trainSet l) data)
                     (includes (Learner.testSet l) data) c).
    destruct (IH (<[output data := c']> res)) as (res' & Hrun & Hb & Hd & Ht).
    + intros d Hd. destruct (decide (output data = output d)) as [->|Hne].
      * rewrite lookup_insert_eq. eauto.
      * rewrite lookup_insert_ne by done. apply Hkeys. by right.
    + intros d Hd. apply Hone. by right.
    + intros key k. destruct (decide (output data = key)) as [<-|Hne].
      * rewrite lookup_insert_eq. intros [= <-].
        apply tally_balanced; [apply Hone; left | by apply (Hbal _ _ Hc)].
      * rewrite lookup_insert_ne by done. apply Hbal.
    + exists res'. cbn. rewrite (countSample_Some l res data c Hc). cbn.
      fold c'. split; [exact Hrun|]. split; [exact Hb|]. split.
      * rewrite Hd, dom_insert_L. apply subseteq_union_1_L.
        apply singleton_subseteq_l, elem_of_dom. eauto.
      * rewrite Ht. pose proof (total_overall_update res _ c c' Hc) as Hu.
        unfold c' in Hu at 2. rewrite tally_overall in Hu. cbn. lia.
Qed.

(** The first loop: one entry per category, all zero. *)
Lemma initCounts_fold (cats : list Category) :
  ∀ acc : gmap string Counts.t,
  let res := fold_left (λ res cat, <[cat := Counts.zero]> res) cats acc in
  dom res = dom acc ∪ list_to_set cats
  ∧ (∀ key c, res !! key = Some c → c = Counts.zero ∨ acc !! key = Some c).
Proof.
  induction cats as [|cat rest IH]; intros acc; cbn.
  - split; [by rewrite (right_id_L ∅ (∪)) | auto].
  - destruct (IH (<[cat := Counts.zero]> acc)) as [Hdom Hent]. split.
    + rewrite Hdom, dom_insert_L.
      by rewrite (comm_L (∪) {[cat]}), <- (assoc_L (∪)).
    + intros key c Hc. destruct (Hent key c Hc) as [->|Hin]; [by left|].
      destruct (decide (cat = key)) as [<-|Hne].
      * rewrite lookup_insert_eq in Hin. left. congruence.
      * rewrite lookup_insert_ne in Hin by done. by right.
Qed.

Lemma initCounts_dom : dom (initCounts categories) = list_to_set categories.
Proof.
  destruct (initCounts_fold categories ∅) as [Hdom _]. unfold initCounts.
  by rewrite Hdom, dom_empty_L, (left_id_L ∅ (∪)).
Qed.

Lemma initCounts_zero key c :
  initCounts categories !! key = Some c → c = Counts.zero.
Proof.
  intros Hc. destruct (initCounts_fold categories ∅) as [_ Hent].
  destruct (Hent key c Hc) as [->|Hin]; [done|].
  by rewrite lookup_empty in Hin.
Qed.

Lemma total_overall_zero (res : gmap string Counts.t) :
  (∀ key c, res !! key = Some c → c = Counts.zero) → total_overall res = 0.
Proof.
  induction res as [|key c res Hnone IH] using map_ind; intros Hz.
  - apply total_overall_empty.
  - rewrite total_overall_insert_fresh by done.
    rewrite (Hz key c) by apply lookup_insert_eq. cbn. apply IH.
    intros k c' Hk. apply (Hz k). rewrite lookup_insert_ne; [done|].
    intros ->. congruence.
Qed.

(** With the dataset contract, the loop of [getCategoryPartition] finds an
  entry for every sample. *)
Lemma countSamples_init (l : Learner.t C) :
  outputs_in categories (Learner.dataset l) →
  disjoint_by_identity (Learner.trainSet l) (Learner.testSet l) →
  covers (Learner.trainSet l) (Learner.testSet l) (Learner.dataset l) →
  ∃ res, countSamples l (initCounts categories) (Learner.dataset l) = OK res
    ∧ balanced res
    ∧ dom res = list_to_set categories
    ∧ total_overall res = length (Learner.dataset l).
Proof.
  intros Hout Hdisj Hcov.
  destruct (countSamples_spec l (Learner.dataset l) (initCounts categories))
    as (res & Hrun & Hb & Hd & Ht).
  - intros d Hd. apply elem_of_dom. rewrite initCounts_dom.
    apply elem_of_list_to_set. by apply Hout.
  - intros d Hd. by eapply includes_exactly_one.
  - intros key c Hc. by rewrite (initCounts_zero key c Hc).
  - exists res. split; [done|]. split; [done|]. split.
    + by rewrite Hd, initCounts_dom.
    + by rewrite Ht, (total_overall_zero _ initCounts_zero).
Qed.

(** C10. When [trainSet] and [testSet] are disjoint by identity and together
  cover the dataset, and every output is one of the categories,
  [getCategoryPartition] returns (it does not throw) an object with exactly
  one entry per category; every entry satisfies [overall = train + test];
  the [overall] counts add up to the size of the dataset; and the state of
  the Learner after the call is the state before it. *)
Theorem getCategoryPartition_counts (st : St (C:=C)) :
  disjoint_by_identity (Learner.trainSet (this st)) (Learner.testSet (this st)) →
  covers (Learner.trainSet (this st)) (Learner.testSet (this st))
    (Learner.dataset (this st)) →
  outputs_in categories (Learner.dataset (this st)) →
  ∃ res, getCategoryPartition categories st = (OK res, st)
    ∧ (∀ cat, cat ∈ categories →
         ∃ c, res !! cat = Some c
           ∧ Counts.overall c = Counts.train c + Counts.test c)
    ∧ dom res = list_to_set categories
    ∧ total_overall res = length (Learner.dataset (this st)).
Proof.
  intros Hdisj Hcov Hout.
  destruct (countSamples_init (this st) Hout Hdisj Hcov)
    as (res & Hrun & Hb & Hd & Ht).
  exists res. split; [|split; [|split]]; try done.
  - cbv [getCategoryPartition mbind M_mbind M_bind get_this lift_res].
    by rewrite Hrun.
  - intros cat Hcat.
    assert (is_Some (res !! cat)) as [c Hc].
    { apply elem_of_dom. rewrite Hd. by apply elem_of_list_to_set. }
    exists c. split; [done | by apply (Hb cat)].
Qed.

(** *** getStats *)

(** The dataset loop cannot throw when every category met has an entry. *)
Lemma countSamples_runs (l : Learner.t C) (ds : list Sample) :
  ∀ res : gmap string Counts.t,
  (∀ d, d ∈ ds → is_Some (res !! output d)) →
  ∃ res', countSamples l res ds = OK res'.
Proof.
  induction ds as [|data rest IH]; intros res Hkeys; [by exists res|].
  destruct (Hkeys data) as [c Hc]; [left|].
  cbn. rewrite (countSample_Some l res data c Hc). cbn. apply IH.
  intros d Hd. destruct (decide (output data = output d)) as [->|Hne].
  - rewrite lookup_insert_eq. eauto.
  - rewrite lookup_insert_ne by done. apply Hkeys. by right.
Qed.

Lemma getCategoryPartition_runs (st : St (C:=C)) :
  outputs_in categories (Learner.dataset (this st)) →
  ∃ res, getCategoryPartition categories st = (OK res, st).
Proof.
  intros Hout.
  destruct (countSamples_runs (this st) (Learner.dataset (this st))
              (initCounts categories)) as [res Hres].
  - intros d Hd. apply elem_of_dom. rewrite initCounts_dom.
    apply elem_of_list_to_set. by apply Hout.
  - exists res.
    cbv [getCategoryPartition mbind M_mbind M_bind get_this lift_res].
    by rewrite Hres.
Qed.

(** [getStats] when [microAvg] is set and the category partition is [cp]. *)
Lemma getStats_Some (st : St (C:=C)) m cp :
  Learner.microAvg (this st) = Some m →
  getCategoryPartition categories st = (OK cp, st) →
  getStats categories st
  = (OK {| Stats.TP := PrecisionRecall.TP m;
           Stats.TN := PrecisionRecall.TN m;
           Stats.FP := PrecisionRecall.FP m;
           Stats.FN := PrecisionRecall.FN m;
           Stats.confusion := PrecisionRecall.confusion m;
           Stats.Precision := PrecisionRecall.Precision m;
           Stats.Accuracy := PrecisionRecall.Accuracy m;
           Stats.Recall := PrecisionRecall.Recall m;
           Stats.F1 := PrecisionRecall.F1 m;
           Stats.Specificity :=
             (PrecisionRecall.TN m /
                (PrecisionRecall.FP m + PrecisionRecall.TN m))%float;
           Stats.totalCount := PrecisionRecall.count m;
           Stats.trainCount := length (Learner.trainSet (this st));
           Stats.testCount := length (Learner.testSet (this st));
           Stats.categoryPartition := cp |}, st).
Proof.
  intros Hm Hcp.
  cbv [getStats mbind M_mbind M_bind get_this defined mret M_mret M_ret].
  rewrite Hm. cbv beta iota. by rewrite Hcp.
Qed.

(** Division of numbers by a zero: the quotient is [NaN] or an infinity,
  never a finite number, and it is [NaN] when the dividend is a zero
  too. *)
Lemma is_zero_inv (x : float) :
  is_zero x = true → ∃ s, Prim2SF x = S754_zero s.
Proof.
  unfold is_zero. rewrite FloatAxioms.eqb_spec.
  change (Prim2SF 0) with (S754_zero false).
  destruct (Prim2SF x) as [s|s| |s mx ex]; cbn.
  - intros _. by exists s.
  - by destruct s.
  - discriminate.
  - by destruct s.
Qed.



Lemma number_of_N_zero : number_of_N 0 = 0%float.
Proof. reflexivity. Qed.


(** The same on counts: when [FP] and [TN] are the doubles of two natural
  numbers whose sum is zero, [Specificity] is [NaN]. *)
Lemma getStats_specificity_counts (st : St (C:=C)) m (fp tn : N) :
  Learner.microAvg (this st) = Some m →
  outputs_in categories (Learner.dataset (this st)) →
  PrecisionRecall.FP m = number_of_N fp →
  PrecisionRecall.TN m = number_of_N tn →
  (fp + tn = 0)%N →
  ∃ report, getStats categories st = (OK report, st)
    ∧ is_nan (Stats.Specificity report) = true.
Proof.
  intros Hm Hout Hfp Htn Hsum.
  assert (fp = 0%N ∧ tn = 0%N) as [-> ->] by lia.
  destruct (getCategoryPartition_runs st Hout) as [cp Hcp].
  eexists. split; [by apply getStats_Some|]. cbn.
  by rewrite Hfp, Htn.
Qed.

(** *** constructor *)

(** C7. With a splitter that honours its contract, constructing a Learner
  from a dataset [D] of distinct objects and a ratio [r] in (0,1) succeeds
  and computes the split at once: [trainSet] and [testSet] are the two
  parts returned by [trainTestSplit(D, r)], their sizes add up to [|D|],
  [|trainSet| = round(r * |D|)], and no object is in both. *)
Theorem constructor_splits (rng : Entropy) (D : list Sample) (r : Q)
    (builder : option (unit → C)) :
  split_contract →
  NoDup (oid <$> D) → (0 < r)%Q → (r < 1)%Q →
  ∃ l, new_Learner labelDS classifierBuilder rng
         {| Opts.dataset := Some D; Opts.trainSplit := Some r;
            Opts.classifier := builder |} = OK l
    ∧ Learner.dataset l = D
    ∧ Learner.trainSplit l = r
    ∧ trainTestSplit rng D r = OK (Learner.trainSet l, Learner.testSet l)
    ∧ length (Learner.trainSet l) + length (Learner.testSet l) = length D
    ∧ Z.of_nat (length (Learner.trainSet l))
      = Math_round (r * inject_Z (Z.of_nat (length D)))
    ∧ disjoint_by_identity (Learner.trainSet l) (Learner.testSet l).
Proof.
  intros Hsplit Hnodup Hlo Hhi.
  destruct (Hsplit rng D r Hnodup Hlo Hhi) as (tr & te & Hrun & Hlen & Hround & Hdisj).
  eexists. unfold new_Learner. cbn. rewrite Hrun. cbn.
  split; [reflexivity|]. cbn. by repeat split.
Qed.

(** *** toJSON, fromJSON *)

(** C4. With a deserializer that rejects [undefined], [fromJSON] of an
  object that has no [classifier] field throws: no Learner is returned. *)
Theorem fromJSON_missing_classifier (rng : Entropy) (json : Json.t C) :
  rejects_undefined →
  Json.classifier json = None →
  ∃ e, (fromJSON labelDS classifierBuilder rng json).1 = Throw e.
Proof.
  intros [e He] Hnone. unfold fromJSON.
  destruct (new_Learner _ _ _ _) as [l|e']; [|by exists e'].
  cbv [deserializeClassifier emit lift_res mbind M_mbind M_bind].
  rewrite Hnone, He. by exists e.
Qed.

(** C6. Round trip: when the split of [l]'s dataset at [l]'s ratio succeeds
  (as it did when [l] was constructed) and the deserializer maps the
  serialized classifier of [l] to a classifier [c'] that classifies as
  [l]'s does, [fromJSON(l.toJSON())] returns a Learner with the dataset,
  [trainSplit], [trainSet], [testSet], [classifierBuilder], [macroAvg] and
  [microAvg] of [l], whose classifier classifies every input as [l]'s
  does; [toJSON] leaves [l] as it was. *)
Theorem toJSON_fromJSON_roundtrip (rng : Entropy) (st : St (C:=C)) (c' : C) :
  is_OK (trainTestSplit rng (Learner.dataset (this st))
           (Learner.trainSplit (this st))) = true →
  fromString (Some (toString (Learner.classifier (this st))
                      (Learner.classifierBuilder (this st)))) = OK c' →
  (∀ x, classify c' x = classify (Learner.classifier (this st)) x) →
  ∃ json l', toJSON st = (OK json, st)
    ∧ (fromJSON labelDS classifierBuilder rng json).1 = OK l'
    ∧ Learner.dataset l' = Learner.dataset (this st)
    ∧ Learner.trainSplit l' = Learner.trainSplit (this st)
    ∧ Learner.trainSet l' = Learner.trainSet (this st)
    ∧ Learner.testSet l' = Learner.testSet (this st)
    ∧ Learner.classifierBuilder l' = Learner.classifierBuilder (this st)
    ∧ Learner.macroAvg l' = Learner.macroAvg (this st)
    ∧ Learner.microAvg l' = Learner.microAvg (this st)
    ∧ (∀ x, classify (Learner.classifier l') x
            = classify (Learner.classifier (this st)) x).
Proof.
  intros Hsplit Hde Hbeh.
  destruct (trainTestSplit rng _ _) as [[tr te]|e] eqn:Hs; [|discriminate].
  eexists. eexists. split.
  { cbv [toJSON serializeClassifier mbind M_mbind M_bind get_this mret
         M_mret M_ret]. reflexivity. }
  unfold fromJSON, new_Learner. cbn. rewrite Hs. cbn.
  cbv [deserializeClassifier emit lift_res mbind M_mbind M_bind].
  rewrite Hde. cbn. split; [reflexivity|]. cbn.
  repeat split; try done.
  - by destruct (Learner.macroAvg (this st)).
  - by destruct (Learner.microAvg (this st)).
Qed.

(** *** crossValidate *)

(** The loop over the partitions refines the fold of the state machine. *)
Lemma forEach_onPartition (v : Z) (l : Learner.t C)
    (splits : list (list Sample * list Sample)) :
  ∀ (s : CVState) (log : list Event),
  forEach (onPartition v) splits {| this := with_cv_state s l; calls := log |}
  = (OK (), {| this := with_cv_state (cv_fold s splits) l;
               calls := log ++ concat (cv_passes v s splits) |}).
Proof.
  induction splits as [|[tr te] rest IH]; intros s log.
  - cbn. by rewrite app_nil_r.
  - cbn [forEach cv_passes concat cv_fold fold_left].
    cbv [mbind M_mbind M_bind onPartition train get_this emit set_this].
    cbn [this calls]. fold (cv_fold (cv_step s (tr, te)) rest).
    etrans; [apply (IH (cv_step s (tr, te)))|].
    cbn [calls]. unfold cv_pass. cbn. by rewrite <- !app_assoc.
Qed.

(** [crossValidate] in terms of the state machine of the specification. *)
Lemma crossValidate_run (rng : Entropy) (k : nat) (v : Z) (lg : bool)
    (st : St (C:=C)) :
  let splits := partitions rng (Learner.dataset (this st)) k in
  let s := cv_fold (cv_init (this st)) splits in
  crossValidate rng k v lg st
  = (OK {| CrossValidation.macroAvg :=
             fullStats (calculateMacroAverageStats k (cv_macro s));
           CrossValidation.microAvg := fullStats (calculateStats (cv_micro s)) |},
     {| this := with_cv_state (cv_finish k s) (this st);
        calls := calls st
                 ++ concat (cv_passes v (cv_init (this st)) splits)
                 ++ [EvCalculateMacroAverageStats k; EvCalculateStats] |}).
Proof.
  intros splits s. unfold crossValidate.
  cbv [mbind M_mbind M_bind get_this set_this]. cbn [this calls].
  change (Learner.dataset (with_microAvg _ _)) with (Learner.dataset (this st)).
  fold splits.
  change (with_microAvg (Some PR_new) (with_macroAvg (Some PR_new) (this st)))
    with (with_cv_state (cv_init (this st)) (this st)).
  rewrite forEach_onPartition. fold s.
  cbv [defined emit mret M_mret M_ret]. cbn.
  by rewrite <- !app_assoc.
Qed.

Lemma cv_passes_length (v : Z) (splits : list (list Sample * list Sample)) :
  ∀ s : CVState, length (cv_passes v s splits) = length splits.
Proof. induction splits as [|sp rest IH]; intros s; cbn; [done | by rewrite IH]. Qed.

(** Every pass is one [trainBatch] on the training subset of its split
  followed by one [test] of the classifier just trained on the test subset
  of the same split. *)
Lemma cv_passes_shape (v : Z) (splits : list (list Sample * list Sample)) :
  ∀ s : CVState,
  Forall2 (λ pass split,
             ∃ c : C, pass = [EvTrainBatch c split.1;
                              EvTest (trainBatch c split.1) split.2 v
                                (predictions (trainBatch c split.1) split.2)])
          (cv_passes v s splits) splits.
Proof.
  induction splits as [|sp rest IH]; intros s; cbn; constructor; [|apply IH].
  by exists (cv_clf s).
Qed.

(** C1. When limdu's [partitions] yields [k] splits, [crossValidate(k)]
  returns (it does not throw) after [k] passes, one per split and in the
  order of the splits, each a [trainBatch] followed by a [test]; the
  (predicted, actual) pairs of every fold go into both accumulators (the
  state machine [cv_fold]); then come [calculateMacroAverageStats(k)] on
  the macro accumulator and [calculateStats()] on the micro accumulator,
  and the result is [{macroAvg: macroAvg.fullStats(), microAvg:
  microAvg.fullStats()}]. *)
Theorem crossValidate_runs_k_folds (rng : Entropy) (k : nat) (v : Z)
    (lg : bool) (st : St (C:=C)) :
  yields_k_folds rng (Learner.dataset (this st)) k →
  ∃ splits passes s st',
    splits = partitions rng (Learner.dataset (this st)) k
    ∧ passes = cv_passes v (cv_init (this st)) splits
    ∧ s = cv_fold (cv_init (this st)) splits
    ∧ length passes = k
    ∧ Forall2 (λ pass split,
                 ∃ c : C, pass = [EvTrainBatch c split.1;
                                  EvTest (trainBatch c split.1) split.2 v
                                    (predictions (trainBatch c split.1) split.2)])
              passes splits
    ∧ crossValidate rng k v lg st
      = (OK {| CrossValidation.macroAvg :=
                 fullStats (calculateMacroAverageStats k (cv_macro s));
               CrossValidation.microAvg :=
                 fullStats (calculateStats (cv_micro s)) |}, st')
    ∧ calls st'
      = calls st ++ concat passes
        ++ [EvCalculateMacroAverageStats k; EvCalculateStats]
    ∧ Learner.macroAvg (this st')
      = Some (calculateMacroAverageStats k (cv_macro s))
    ∧ Learner.microAvg (this st') = Some (calculateStats (cv_micro s)).
Proof.
  intros Hk. do 4 eexists.
  split; [reflexivity|]. split; [reflexivity|]. split; [reflexivity|].
  split; [by rewrite cv_passes_length|].
  split; [apply cv_passes_shape|].
  split; [apply crossValidate_run|]. by cbn.
Qed.

(** C2, as the code has it. [crossValidate] always returns; it sets
  [macroAvg] and [microAvg] to the accumulators computed by this call
  (whatever they held before), and it leaves [trainSet], [testSet],
  [dataset], [trainSplit] and [classifierBuilder] as they were: the
  subsets of a fold are passed to [train] and [test] as arguments and are
  never stored in the Learner. *)
Theorem crossValidate_frame (rng : Entropy) (k : nat) (v : Z) (lg : bool)
    (st : St (C:=C)) :
  ∃ r st' s,
    crossValidate rng k v lg st = (OK r, st')
    ∧ s = cv_fold (cv_init (this st))
            (partitions rng (Learner.dataset (this st)) k)
    ∧ Learner.macroAvg (this st')
      = Some (calculateMacroAverageStats k (cv_macro s))
    ∧ Learner.microAvg (this st') = Some (calculateStats (cv_micro s))
    ∧ Learner.trainSet (this st') = Learner.trainSet (this st)
    ∧ Learner.testSet (this st') = Learner.testSet (this st)
    ∧ Learner.dataset (this st') = Learner.dataset (this st)
    ∧ Learner.trainSplit (this st') = Learner.trainSplit (this st)
    ∧ Learner.classifierBuilder (this st')
      = Learner.classifierBuilder (this st).
Proof.
  do 3 eexists. split; [apply crossValidate_run|]. by cbn.
Qed.

Lemma entering_states_app (log1 log2 : list (Event (C:=C))) :
  entering_states (log1 ++ log2) = entering_states log1 ++ entering_states log2.
Proof. apply omap_app. Qed.

(** The classifier entering pass [i] has been trained on the training
  subsets of the passes before it. *)
Lemma entering_states_passes (v : Z)
    (splits : list (list Sample * list Sample)) :
  ∀ s : CVState,
  entering_states (concat (cv_passes v s splits))
  = (λ i, fold_left trainBatch (take i splits.*1) (cv_clf s))
      <$> seq 0 (length splits).
Proof.
  induction splits as [|sp rest IH]; intros s; [done|].
  cbn [cv_passes concat length seq fmap list_fmap].
  rewrite entering_states_app, IH. cbn.
  f_equal. rewrite <- fmap_S_seq, <- list_fmap_compose. done.
Qed.

(** C5, as the code has it. [crossValidate] trains the one classifier of
  the Learner fold after fold and never re-initialises it: the classifier
  entering the training call of fold [i] is the classifier the Learner had
  when [crossValidate] was called, trained on the training subsets of
  folds [0..i-1] in order. *)
Theorem crossValidate_classifier_carried (rng : Entropy) (k : nat) (v : Z)
    (lg : bool) (st : St (C:=C)) :
  ∃ r st' log splits,
    crossValidate rng k v lg st = (OK r, st')
    ∧ calls st' = calls st ++ log
    ∧ splits = partitions rng (Learner.dataset (this st)) k
    ∧ entering_states log
      = (λ i, fold_left trainBatch (take i splits.*1)
                (Learner.classifier (this st)))
          <$> seq 0 (length splits).
Proof.
  do 4 eexists. split; [apply crossValidate_run|].
  split; [reflexivity|]. split; [reflexivity|].
  rewrite entering_states_app, entering_states_passes. cbn.
  by rewrite app_nil_r.
Qed.

(** *** Persistence *)

(** A failed write: the promise is rejected with the error of [writeFile],
  the [resolve(data)] that follows is ignored, and the file is written
  once. *)
Lemma serializeAndSaveClassifier_failure (file : string) (e : JsError)
    (st : St (C:=C)) :
  serializeAndSaveClassifier file (Some e) st
  = (OK {| Settled.promise := Rejected e; Settled.uncaught := None |},
     {| this := this st;
        calls := calls st
                 ++ [EvWriteFile file
                       (toString (Learner.classifier (this st))
                          (Learner.classifierBuilder (this st)))] |}).
Proof. reflexivity. Qed.

(** A successful read whose contents deserialize: the promise is fulfilled
  with the classifier. *)
Lemma loadAndDeserializeClassifier_success (file data : string) (c : C)
    (st : St (C:=C)) :
  fromString (Some data) = OK c →
  (loadAndDeserializeClassifier file None (Some data) st).1
  = OK {| Settled.promise := Fulfilled c; Settled.uncaught := None |}.
Proof.
  intros Hde.
  cbv [loadAndDeserializeClassifier deserializeClassifier attempt emit
       lift_res mbind M_mbind M_bind mret M_mret M_ret].
  cbn [this calls]. by rewrite Hde.
Qed.

(** C8, at a failed read. The promise of [loadAndDeserializeClassifier] is
  rejected with the error of [readFile] and the file is read once; but the
  callback goes on after [reject(err)]: it calls the deserializer on
  [undefined], and what the deserializer throws escapes the callback. *)
Theorem loadAndDeserializeClassifier_failure (file : string) (e : JsError)
    (st : St (C:=C)) :
  ∃ out st',
    loadAndDeserializeClassifier file (Some e) None st = (OK out, st')
    ∧ Settled.promise out = Rejected e
    ∧ calls st' = calls st ++ [EvReadFile file; EvFromString None]
    ∧ Settled.uncaught out
      = match fromString (C:=C) None with
        | Throw e' => Some e'
        | OK _ => None
        end.
Proof.
  cbv [loadAndDeserializeClassifier deserializeClassifier attempt emit
       lift_res mbind M_mbind M_bind mret M_mret M_ret].
  cbn [this calls].
  destruct (fromString None) as [c|e']; do 2 eexists;
    (split; [reflexivity|]); cbn; by rewrite <- app_assoc.
Qed.

(** *** The boolean forms are sound *)

Lemma disjointb_sound (tr te : list Sample) :
  disjointb tr te = true → disjoint_by_identity tr te.
Proof.
  unfold disjointb. rewrite forallb_forall. intros Hall a b Ha Hb Heq.
  apply list_elem_of_In in Ha, Hb.
  specialize (Hall a Ha). rewrite forallb_forall in Hall.
  specialize (Hall b Hb). unfold same_object in Hall.
  apply negb_true_iff, Nat.eqb_neq in Hall. done.
Qed.

Lemma coversb_sound (tr te ds : list Sample) :
  coversb tr te ds = true → covers tr te ds.
Proof.
  unfold coversb. rewrite forallb_forall. intros Hall d Hd.
  apply list_elem_of_In in Hd. specialize (Hall d Hd).
  apply orb_true_iff in Hall as [Hin | Hin];
    apply includes_true in Hin as (x & Hx & Hxo);
    exists x; (split; [|done]); apply elem_of_app; auto.
Qed.

Lemma outputs_inb_sound (cats : list Category) (ds : list Sample) :
  outputs_inb cats ds = true → outputs_in cats ds.
Proof.
  unfold outputs_inb. rewrite forallb_forall. intros Hall d Hd.
  apply list_elem_of_In in Hd. specialize (Hall d Hd).
  apply existsb_exists in Hall as (cat & Hcat & Heq).
  apply String.eqb_eq in Heq. rewrite Heq. by apply list_elem_of_In.
Qed.

End Properties.

(** ** The fixture honours the contracts *)

Lemma Qlt_bool_true (x y : Q) : (x < y)%Q → Fixture.Qlt_bool x y = true.
Proof.
  intros Hlt. unfold Fixture.Qlt_bool. apply negb_true_iff.
  destruct (Qle_bool y x) eqn:Hle; [|done].
  apply Qle_bool_iff in Hle. by apply Qlt_not_le in Hlt.
Qed.

(** [round(r * n)] lies between [0] and [n] when [r] is in (0,1). *)
Lemma Math_round_ratio_bounds (r : Q) (n : nat) :
  (0 < r)%Q → (r < 1)%Q →
  (0 ≤ Math_round (r * inject_Z (Z.of_nat n)) ≤ Z.of_nat n)%Z.
Proof.
  destruct r as [p q]. unfold Qlt, Math_round, Qfloor. cbn.
  intros Hlo Hhi. split.
  - apply Z.div_pos; lia.
  - apply Z.lt_succ_r, Z.div_lt_upper_bound; nia.
Qed.

Lemma prefix_split_contract : split_contract (Entropy:=unit).
Proof.
  intros rng D r Hnodup Hlo Hhi.
  pose proof (Math_round_ratio_bounds r (length D) Hlo Hhi) as Hround.
  cbn [trainTestSplit Fixture.prefix_splitter]. unfold Fixture.prefix_split.
  rewrite !Qlt_bool_true by done. cbn [andb].
  set (m := Math_round (r * inject_Z (Z.of_nat (length D)))) in *.
  exists (take (Z.to_nat m) D), (drop (Z.to_nat m) D).
  split; [reflexivity|].
  rewrite length_take, length_drop. split; [lia|]. split; [lia|].
  intros a b Ha Hb Heq.
  rewrite <- (take_drop (Z.to_nat m) D), fmap_app in Hnodup.
  apply NoDup_app in Hnodup as (_ & Hdisj & _).
  apply (Hdisj (oid a)).
  - by apply list_elem_of_fmap_2.
  - rewrite Heq. by apply list_elem_of_fmap_2.
Qed.

(** ** The Learner run on the fixture *)

Example constructor_on_fixture :
  new_Learner Fixture.labelDS Fixture.classifierBuilder tt
    {| Opts.dataset := None; Opts.trainSplit := Some (3 # 4)%Q;
       Opts.classifier := None |}
  = OK Fixture.learner.
Proof. reflexivity. Qed.

Example constructor_rejects_ratio_on_fixture :
  new_Learner Fixture.labelDS Fixture.classifierBuilder tt
    {| Opts.dataset := None; Opts.trainSplit := Some (3 # 2)%Q;
       Opts.classifier := None |}
  = Throw (ExtError "InvalidRatio").
Proof. reflexivity. Qed.

(** The calls of [crossValidate(2)]: the second [trainBatch] starts from
  what the first one left. *)
Example crossValidate_log_on_fixture :
  calls Fixture.validated
  = [EvTrainBatch [] [Fixture.goodbye; Fixture.ciao];
     EvTest [("goodbye", "bye"); ("ciao", "bye")]
       [Fixture.hello; Fixture.hi] 0
       [(EmptyString, "greet"); (EmptyString, "greet")];
     EvTrainBatch [("goodbye", "bye"); ("ciao", "bye")]
       [Fixture.hello; Fixture.hi];
     EvTest [("goodbye", "bye"); ("ciao", "bye");
             ("hello", "greet"); ("hi", "greet")]
       [Fixture.goodbye; Fixture.ciao] 0
       [("bye", "bye"); ("bye", "bye")];
     EvCalculateMacroAverageStats 2; EvCalculateStats].
Proof. reflexivity. Qed.

Example getCategoryPartition_on_fixture :
  (getCategoryPartition Fixture.categories Fixture.fresh).1
  = OK {[ "greet" := {| Counts.overall := 2; Counts.test := 0;
                        Counts.train := 2 |};
          "bye" := {| Counts.overall := 2; Counts.test := 1;
                      Counts.train := 1 |} ]}.
Proof. vm_compute. reflexivity. Qed.

(** A sample whose output is not a category makes the call throw. *)
Example getCategoryPartition_unknown_category :
  (getCategoryPartition ["greet"] Fixture.fresh).1
  = Throw (TypeError "Cannot read properties of undefined").
Proof. vm_compute. reflexivity. Qed.

(** A failed read on the fixture: the promise is rejected, and the error
  the deserializer throws on [undefined] is uncaught. *)
Example load_failure_on_fixture :
  loadAndDeserializeClassifier "classifier.json" (Some (ExtError "ENOENT"))
    None Fixture.fresh
  = (OK {| Settled.promise := Rejected (ExtError "ENOENT");
           Settled.uncaught :=
             Some (ExtError "SyntaxError: undefined is not valid JSON") |},
     {| this := Fixture.learner;
        calls := [EvReadFile "classifier.json"; EvFromString None] |}).
Proof. reflexivity. Qed.

(** ** The properties on the fixture *)

(** C1 on the fixture: two folds, hence four calls to the classifier and
  the accumulators before the two final calculations. *)
Lemma crossValidate_runs_k_folds_witness :
  ∃ passes st',
    (crossValidate tt 2 0 false Fixture.fresh).2 = st'
    ∧ length passes = 2
    ∧ calls st'
      = concat passes ++ [EvCalculateMacroAverageStats 2; EvCalculateStats].
Proof.
  destruct (crossValidate_runs_k_folds tt 2 0 false Fixture.fresh)
    as (splits & passes & s & st' & _ & _ & _ & Hlen & _ & Hrun & Hcalls & _).
  - reflexivity.
  - exists passes, st'. rewrite Hrun. by repeat split.
Defined.

(** C2 as the specification words it fails on the fixture: after
  [crossValidate(2)] the Learner still holds the split of its constructor,
  which is the split of neither fold. *)
Lemma crossValidate_keeps_constructor_split :
  Learner.trainSet (this Fixture.validated)
  = [Fixture.hello; Fixture.hi; Fixture.goodbye]
  ∧ Learner.testSet (this Fixture.validated) = [Fixture.ciao]
  ∧ ¬ holds_fold_partition (this Fixture.validated)
        (partitions tt Fixture.labelDS 2).
Proof.
  split; [reflexivity|]. split; [reflexivity|].
  intros (split & Hin & Htr & _).
  apply list_elem_of_In in Hin. vm_compute in Hin.
  destruct Hin as [<-|[<-|[]]]; vm_compute in Htr; discriminate.
Qed.

(** C5 as the specification words it fails on the fixture: the second
  fold is entered with the classifier left by the first, which is not a
  fresh one; it already knows the answer to a sample of the second fold's
  test set, which a fresh classifier trained on the second fold's training
  subset does not. *)
Lemma crossValidate_reuses_classifier :
  entering_states (calls Fixture.validated)
  = [[]; [("goodbye", "bye"); ("ciao", "bye")]]
  ∧ ¬ trains_fresh Fixture.classifierBuilder (calls Fixture.validated)
  ∧ classify (trainBatch [("goodbye", "bye"); ("ciao", "bye")]
                [Fixture.hello; Fixture.hi]) "goodbye" = "bye"
  ∧ classify (trainBatch (Fixture.classifierBuilder ())
                [Fixture.hello; Fixture.hi]) "goodbye" = EmptyString.
Proof.
  split; [reflexivity|]. split; [|by split].
  intros Hfresh.
  specialize (Hfresh [("goodbye", "bye"); ("ciao", "bye")]).
  discriminate Hfresh. right. left.
Qed.

(** C4 on the fixture: an object with every field but [classifier]. *)
Lemma fromJSON_missing_classifier_witness :
  ∃ e, (fromJSON Fixture.labelDS Fixture.classifierBuilder tt
          {| Json.classifier := None;
             Json.classifierBuilder := Some Fixture.classifierBuilder;
             Json.dataset := Some Fixture.labelDS;
             Json.trainSplit := Some (3 # 4)%Q;
             Json.trainSet := Some [Fixture.hello; Fixture.hi; Fixture.goodbye];
             Json.testSet := Some [Fixture.ciao];
             Json.macroAvg := None;
             Json.microAvg := None |}).1 = Throw e.
Proof.
  apply fromJSON_missing_classifier; [|reflexivity].
  by eexists.
Defined.

(** C6 on the fixture, after cross-validation: the classifier has
  memorised the four samples and both accumulators are set. *)
Lemma toJSON_fromJSON_roundtrip_witness :
  ∃ json l', toJSON Fixture.validated = (OK json, Fixture.validated)
    ∧ (fromJSON Fixture.labelDS Fixture.classifierBuilder tt json).1 = OK l'
    ∧ Learner.trainSet l' = Learner.trainSet (this Fixture.validated)
    ∧ Learner.microAvg l' = Learner.microAvg (this Fixture.validated)
    ∧ classify (Learner.classifier l') "ciao" = "bye".
Proof.
  destruct (toJSON_fromJSON_roundtrip Fixture.labelDS Fixture.classifierBuilder
              tt Fixture.validated
              [("goodbye", "bye"); ("ciao", "bye");
               ("hello", "greet"); ("hi", "greet")])
    as (json & l' & Hto & Hfrom & _ & _ & Htr & _ & _ & _ & Hmicro & Hbeh).
  - reflexivity.
  - reflexivity.
  - intros x. reflexivity.
  - exists json, l'. rewrite (Hbeh "ciao"). by repeat split.
Defined.

(** C7 on the fixture: three of the four samples are for training. *)
Lemma constructor_splits_witness :
  ∃ l, new_Learner Fixture.labelDS Fixture.classifierBuilder tt
         {| Opts.dataset := Some Fixture.labelDS;
            Opts.trainSplit := Some (3 # 4)%Q;
            Opts.classifier := None |} = OK l
    ∧ length (Learner.trainSet l) = 3
    ∧ length (Learner.testSet l) = 1
    ∧ disjoint_by_identity (Learner.trainSet l) (Learner.testSet l).
Proof.
  destruct (constructor_splits Fixture.labelDS Fixture.classifierBuilder tt
              Fixture.labelDS (3 # 4)%Q None prefix_split_contract)
    as (l & Hnew & _ & _ & _ & Hsum & Hround & Hdisj).
  - by apply (bool_decide_unpack _).
  - reflexivity.
  - reflexivity.
  - exists l. split; [exact Hnew|].
    change (Math_round _) with 3%Z in Hround.
    change (length Fixture.labelDS) with 4 in Hsum.
    split; [lia|]. split; [lia|done].
Defined.


(** C10 on the fixture: two entries, of two samples each. *)
Lemma getCategoryPartition_counts_witness :
  ∃ res, getCategoryPartition Fixture.categories Fixture.fresh
         = (OK res, Fixture.fresh)
    ∧ total_overall res = 4.
Proof.
  destruct (getCategoryPartition_counts Fixture.categories Fixture.fresh)
    as (res & Hrun & _ & _ & Htotal).
  - by apply disjointb_sound.
  - by apply coversb_sound.
  - by apply outputs_inb_sound.
  - exists res. by split.
Defined.

(** ** Further properties *)

Section FurtherProperties.

Context {C Entropy : Type}.
Context `{!Classifier C, !Serialization C, !Splitter Entropy, !Limdu Entropy}.
Variable labelDS : list Sample.
Variable classifierBuilder : unit → C.
Variable categories : list Category.

(** *** getCategoryPartition, in general *)

Lemma tally_train inTrain inTest c :
  Counts.train (tally inTrain inTest c)
  = Counts.train c + (if inTrain then 1 else 0).
Proof. destruct inTrain, inTest; cbn; lia. Qed.

Lemma tally_test inTrain inTest c :
  Counts.test (tally inTrain inTest c)
  = Counts.test c + (if inTest then 1 else 0).
Proof. destruct inTrain, inTest; cbn; lia. Qed.

Lemma has_output_true cat d : output d = cat → has_output cat d = true.
Proof. intros <-. apply String.eqb_refl. Qed.

Lemma has_output_false cat d : output d ≠ cat → has_output cat d = false.
Proof. intros Hne. by apply String.eqb_neq. Qed.

(** The dataset loop, entry by entry: when every category met has an
  entry, the loop returns, keeps the keys, adds the length of the list to
  the total, and adds to every entry the census of its key. *)
Lemma countSamples_census (l : Learner.t C) (ds : list Sample) :
  ∀ res : gmap string Counts.t,
  (∀ d, d ∈ ds → is_Some (res !! output d)) →
  ∃ res', countSamples l res ds = OK res'
    ∧ dom res' = dom res
    ∧ total_overall res' = total_overall res + length ds
    ∧ ∀ key c, res !! key = Some c →
        ∃ c', res' !! key = Some c'
          ∧ Counts.overall c'
            = Counts.overall c + count_if (has_output key) ds
          ∧ Counts.train c'
            = Counts.train c
              + count_if (λ d, has_output key d
                               && includes (Learner.trainSet l) d) ds
          ∧ Counts.test c'
            = Counts.test c
              + count_if (λ d, has_output key d
                               && includes (Learner.testSet l) d) ds.
Proof.
  induction ds as [|data rest IH]; intros res Hkeys.
  - exists res. cbn. split; [done|]. split; [done|]. split; [lia|].
    intros key c Hc. exists c. split; [done|]. lia.
  - destruct (Hkeys data) as [c0 Hc0]; [left|].
    set (c1 := tally (includes (Learner.trainSet l) data)
                     (includes (Learner.testSet l) data) c0).
    destruct (IH (<[output data := c1]> res))
      as (res' & Hrun & Hdom & Htotal & Hent).
    { intros d Hd. destruct (decide (output data = output d)) as [->|Hne].
      - rewrite lookup_insert_eq. eauto.
      - rewrite lookup_insert_ne by done. apply Hkeys. by right. }
    exists res'. cbn [countSamples].
    rewrite (countSample_Some l res data c0 Hc0). cbn. fold c1.
    split; [exact Hrun|]. split; [|split].
    + rewrite Hdom, dom_insert_L. apply subseteq_union_1_L.
      apply singleton_subseteq_l, elem_of_dom. eauto.
    + rewrite Htotal.
      pose proof (total_overall_update res _ c0 c1 Hc0) as Hu.
      unfold c1 in Hu at 2. rewrite tally_overall in Hu. cbn. lia.
    + intros key c Hc. destruct (decide (output data = key)) as [Heq|Hne].
      * subst key. rewrite Hc0 in Hc. injection Hc as <-.
        destruct (Hent (output data) c1) as (c' & Hc' & Ho & Htr & Hte);
          [apply lookup_insert_eq|].
        exists c'. split; [done|]. cbn [count_if].
        rewrite (has_output_true (output data) data eq_refl). cbn [andb].
        unfold c1 in Ho, Htr, Hte.
        rewrite tally_overall in Ho. rewrite tally_train in Htr.
        rewrite tally_test in Hte. lia.
      * destruct (Hent key c) as (c' & Hc' & Ho & Htr & Hte);
          [by rewrite lookup_insert_ne|].
        exists c'. split; [done|]. cbn [count_if].
        rewrite (has_output_false key data Hne). cbn [andb]. lia.
Qed.

(** A sample whose output has no entry but names a member of
  [Object.prototype] leaves the table as it is. *)
Lemma countSample_inherited (l : Learner.t C) (res : gmap string Counts.t)
    data :
  res !! output data = None → inherited (output data) = true →
  countSample l res data = OK res.
Proof.
  intros Hnone Hinh. unfold countSample, bump. rewrite Hnone, Hinh. cbn.
  destruct (includes (Learner.trainSet l) data); cbn; rewrite ?Hnone, ?Hinh;
    cbn; destruct (includes (Learner.testSet l) data);
    by rewrite ?Hnone, ?Hinh.
Qed.

(** The loop throws as soon as it meets a sample whose output has no entry
  and names no member of [Object.prototype]. *)
Lemma countSamples_throws (l : Learner.t C) (ds : list Sample) :
  ∀ res : gmap string Counts.t,
  (∃ d, d ∈ ds ∧ res !! output d = None ∧ inherited (output d) = false) →
  ∃ msg, countSamples l res ds = Throw (TypeError msg).
Proof.
  induction ds as [|data rest IH]; intros res (d & Hd & Hnone & Hinh).
  - by apply elem_of_nil in Hd.
  - cbn [countSamples]. destruct (res !! output data) as [c0|] eqn:Hc0.
    + rewrite (countSample_Some l res data c0 Hc0). cbn.
      apply IH. apply elem_of_cons in Hd as [->|Hd]; [congruence|].
      exists d. split; [done|]. split; [|done].
      rewrite lookup_insert_ne; [done|]. intros Heq. congruence.
    + destruct (inherited (output data)) eqn:Hdata.
      * rewrite (countSample_inherited l res data Hc0 Hdata). cbn.
        apply IH. apply elem_of_cons in Hd as [->|Hd]; [congruence|].
        by exists d.
      * unfold countSample, bump. rewrite Hc0, Hdata. cbn. eauto.
Qed.

(** The loop over a dataset whose outputs all have an entry or name a
  member of [Object.prototype]: it returns, keeps the keys, and adds to
  every entry the census of its key; the samples of the second kind are
  counted nowhere. *)
Lemma countSamples_readable (l : Learner.t C) (ds : list Sample) :
  ∀ res : gmap string Counts.t,
  (∀ d, d ∈ ds → is_Some (res !! output d) ∨ inherited (output d) = true) →
  ∃ res', countSamples l res ds = OK res'
    ∧ dom res' = dom res
    ∧ ∀ key c, res !! key = Some c →
        ∃ c', res' !! key = Some c'
          ∧ Counts.overall c'
            = Counts.overall c + count_if (has_output key) ds
          ∧ Counts.train c'
            = Counts.train c
              + count_if (λ d, has_output key d
                               && includes (Learner.trainSet l) d) ds
          ∧ Counts.test c'
            = Counts.test c
              + count_if (λ d, has_output key d
                               && includes (Learner.testSet l) d) ds.
Proof.
  induction ds as [|data rest IH]; intros res Hkeys.
  - exists res. cbn. split; [done|]. split; [done|].
    intros key c Hc. exists c. split; [done|]. lia.
  - destruct (res !! output data) as [c0|] eqn:Hc0.
    + set (c1 := tally (includes (Learner.trainSet l) data)
                       (includes (Learner.testSet l) data) c0).
      destruct (IH (<[output data := c1]> res)) as (res' & Hrun & Hdom & Hent).
      { intros d Hd. destruct (decide (output data = output d)) as [->|Hne].
        - left. rewrite lookup_insert_eq. eauto.
        - rewrite lookup_insert_ne by done. apply Hkeys. by right. }
      exists res'. cbn [countSamples].
      rewrite (countSample_Some l res data c0 Hc0). cbn. fold c1.
      split; [exact Hrun|]. split.
      * rewrite Hdom, dom_insert_L. apply subseteq_union_1_L.
        apply singleton_subseteq_l, elem_of_dom. eauto.
      * intros key c Hc. destruct (decide (output data = key)) as [Heq|Hne].
        -- subst key. rewrite Hc0 in Hc. injection Hc as <-.
           destruct (Hent (output data) c1) as (c' & Hc' & Ho & Htr & Hte);
             [apply lookup_insert_eq|].
           exists c'. split; [done|]. cbn [count_if].
           rewrite (has_output_true (output data) data eq_refl). cbn [andb].
           unfold c1 in Ho, Htr, Hte.
           rewrite tally_overall in Ho. rewrite tally_train in Htr.
           rewrite tally_test in Hte. lia.
        -- destruct (Hent key c) as (c' & Hc' & Ho & Htr & Hte);
             [by rewrite lookup_insert_ne|].
           exists c'. split; [done|]. cbn [count_if].
           rewrite (has_output_false key data Hne). cbn [andb]. lia.
    + assert (inherited (output data) = true) as Hinh.
      { destruct (Hkeys data) as [[c Hc]|Hinh]; [left|congruence|done]. }
      destruct (IH res) as (res' & Hrun & Hdom & Hent).
      { intros d Hd. apply Hkeys. by right. }
      exists res'. cbn [countSamples].
      rewrite (countSample_inherited l res data Hc0 Hinh). cbn.
      split; [exact Hrun|]. split; [exact Hdom|].
      intros key c Hc. destruct (Hent key c Hc) as (c' & Hc' & Ho & Htr & Hte).
      exists c'. split; [done|]. cbn [count_if].
      rewrite (has_output_false key data) by congruence. cbn [andb]. lia.
Qed.

Lemma readableb_false (cats : list Category) (ds : list Sample) :
  readableb cats ds = false →
  ∃ d, d ∈ ds ∧ (output d ∉ cats) ∧ inherited (output d) = false.
Proof.
  induction ds as [|d rest IH]; [discriminate|].
  change (readableb cats (d :: rest))
    with ((existsb (String.eqb (output d)) cats || inherited (output d))
          && readableb cats rest).
  destruct (existsb (String.eqb (output d)) cats) eqn:Hd;
    [|destruct (inherited (output d)) eqn:Hinh]; cbn [orb andb].
  - intros Hrest. destruct (IH Hrest) as (d' & Hin & Hout).
    exists d'. split; [by right | done].
  - intros Hrest. destruct (IH Hrest) as (d' & Hin & Hout).
    exists d'. split; [by right | done].
  - intros _. exists d. split; [left|]. split; [|done]. intros Hin.
    assert (existsb (String.eqb (output d)) cats = true); [|congruence].
    apply existsb_exists. exists (output d).
    split; [by apply list_elem_of_In | apply String.eqb_refl].
Qed.

Lemma readableb_true (cats : list Category) (ds : list Sample) :
  readableb cats ds = true →
  ∀ d, d ∈ ds → output d ∈ cats ∨ inherited (output d) = true.
Proof.
  unfold readableb. rewrite forallb_forall. intros Hall d Hd.
  apply list_elem_of_In in Hd. specialize (Hall d Hd).
  apply orb_true_iff in Hall as [Hcat|Hinh]; [left|by right].
  apply existsb_exists in Hcat as (cat & Hcat & Heq).
  apply String.eqb_eq in Heq. rewrite Heq. by apply list_elem_of_In.
Qed.

Lemma outputs_inb_false (cats : list Category) (ds : list Sample) :
  outputs_inb cats ds = false → ∃ d, d ∈ ds ∧ output d ∉ cats.
Proof.
  induction ds as [|d rest IH]; cbn; [discriminate|].
  destruct (existsb (String.eqb (output d)) cats) eqn:Hd; cbn.
  - intros Hrest. destruct (IH Hrest) as (d' & Hin & Hout).
    exists d'. split; [by right | done].
  - intros _. exists d. split; [left|]. intros Hin.
    assert (existsb (String.eqb (output d)) cats = true); [|congruence].
    apply existsb_exists. exists (output d).
    split; [by apply list_elem_of_In | apply String.eqb_refl].
Qed.

Lemma outputs_inb_complete (cats : list Category) (ds : list Sample) :
  outputs_in cats ds → outputs_inb cats ds = true.
Proof.
  intros Hout. destruct (outputs_inb cats ds) eqn:Hb; [done|].
  destruct (outputs_inb_false cats ds Hb) as (d & Hd & Hnot).
  by destruct (Hnot (Hout d Hd)).
Qed.

(** The two outcomes of the loop of [getCategoryPartition]. *)
Lemma countSamples_init_OK (l : Learner.t C) :
  outputs_inb categories (Learner.dataset l) = true →
  ∃ res, countSamples l (initCounts categories) (Learner.dataset l) = OK res
    ∧ dom res = list_to_set categories
    ∧ total_overall res = length (Learner.dataset l)
    ∧ ∀ cat, res !! cat
        = if decide (cat ∈ categories) then Some (census l cat) else None.
Proof.
  intros Hout. apply outputs_inb_sound in Hout.
  destruct (countSamples_census l (Learner.dataset l) (initCounts categories))
    as (res & Hrun & Hdom & Htotal & Hent).
  { intros d Hd. apply elem_of_dom. rewrite initCounts_dom.
    apply elem_of_list_to_set. by apply Hout. }
  exists res. split; [done|]. rewrite initCounts_dom in Hdom.
  split; [done|]. split.
  { by rewrite Htotal, (total_overall_zero _ (initCounts_zero categories)). }
  intros cat. destruct (decide (cat ∈ categories)) as [Hin|Hnot].
  - assert (is_Some (initCounts categories !! cat)) as [c0 Hc0].
    { apply elem_of_dom. rewrite initCounts_dom.
      by apply elem_of_list_to_set. }
    pose proof (initCounts_zero categories cat c0 Hc0) as ->.
    destruct (Hent cat _ Hc0) as (c' & Hc' & Ho & Htr & Hte).
    rewrite Hc'. f_equal. unfold census. destruct c'. cbn in *. by subst.
  - apply not_elem_of_dom. rewrite Hdom. by rewrite elem_of_list_to_set.
Qed.

Lemma countSamples_init_Throw (l : Learner.t C) :
  readableb categories (Learner.dataset l) = false →
  ∃ msg, countSamples l (initCounts categories) (Learner.dataset l)
         = Throw (TypeError msg).
Proof.
  intros Hout. destruct (readableb_false _ _ Hout) as (d & Hd & Hnot & Hinh).
  apply countSamples_throws. exists d. split; [done|]. split; [|done].
  apply not_elem_of_dom. rewrite initCounts_dom.
  by rewrite elem_of_list_to_set.
Qed.

(** The loop of [getCategoryPartition] on a readable dataset. *)
Lemma countSamples_init_readable (l : Learner.t C) :
  readableb categories (Learner.dataset l) = true →
  ∃ res, countSamples l (initCounts categories) (Learner.dataset l) = OK res
    ∧ ∀ cat, res !! cat
        = if decide (cat ∈ categories) then Some (census l cat) else None.
Proof.
  intros Hread.
  destruct (countSamples_readable l (Learner.dataset l) (initCounts categories))
    as (res & Hrun & Hdom & Hent).
  { intros d Hd. destruct (readableb_true _ _ Hread d Hd) as [Hcat|Hinh];
      [left|by right].
    apply elem_of_dom. rewrite initCounts_dom.
    by apply elem_of_list_to_set. }
  exists res. split; [done|]. rewrite initCounts_dom in Hdom.
  intros cat. destruct (decide (cat ∈ categories)) as [Hin|Hnot].
  - assert (is_Some (initCounts categories !! cat)) as [c0 Hc0].
    { apply elem_of_dom. rewrite initCounts_dom.
      by apply elem_of_list_to_set. }
    pose proof (initCounts_zero categories cat c0 Hc0) as ->.
    destruct (Hent cat _ Hc0) as (c' & Hc' & Ho & Htr & Hte).
    rewrite Hc'. f_equal. unfold census. destruct c'. cbn in *. by subst.
  - apply not_elem_of_dom. rewrite Hdom. by rewrite elem_of_list_to_set.
Qed.

Lemma getCategoryPartition_unfold (st : St (C:=C)) :
  getCategoryPartition categories st
  = (countSamples (this st) (initCounts categories)
       (Learner.dataset (this st)), st).
Proof. reflexivity. Qed.

(** X1. When every output of the dataset is a category,
  [getCategoryPartition] returns an object whose entry for a category is
  its census: [overall] is the number of samples of the dataset with that
  output, [train] (resp. [test]) the number of those that are objects of
  [trainSet] (resp. [testSet]); it has no entry for anything else. Nothing
  is assumed of [trainSet] and [testSet]. *)
Theorem getCategoryPartition_census (st : St (C:=C)) :
  outputs_in categories (Learner.dataset (this st)) →
  ∃ res, getCategoryPartition categories st = (OK res, st)
    ∧ (∀ cat, cat ∈ categories → res !! cat = Some (census (this st) cat))
    ∧ (∀ cat, cat ∉ categories → res !! cat = None).
Proof.
  intros Hout. apply outputs_inb_complete in Hout.
  destruct (countSamples_init_OK (this st) Hout) as (res & Hrun & _ & _ & Hent).
  exists res. rewrite getCategoryPartition_unfold, Hrun.
  split; [done|]. split; intros cat Hcat; rewrite Hent; by case_decide.
Qed.

(** X2. [getCategoryPartition] returns exactly when every output of the
  dataset is one of the categories or the name of a member of
  [Object.prototype] ([res] being a plain object, [res[output]] is then
  that member); for any other output it throws a [TypeError]. When it
  returns, the entry of every category is its census: the samples whose
  output only names a member of [Object.prototype] are counted nowhere. In
  all cases the Learner is left as it was. *)
Theorem getCategoryPartition_outcome (st : St (C:=C)) :
  (getCategoryPartition categories st).2 = st
  ∧ is_OK (getCategoryPartition categories st).1
    = readableb categories (Learner.dataset (this st))
  ∧ (readableb categories (Learner.dataset (this st)) = false →
     ∃ msg, (getCategoryPartition categories st).1 = Throw (TypeError msg))
  ∧ (∀ res, (getCategoryPartition categories st).1 = OK res →
     ∀ cat, res !! cat
       = if decide (cat ∈ categories)
         then Some (census (this st) cat) else None).
Proof.
  rewrite getCategoryPartition_unfold. cbn [fst snd]. split; [done|].
  destruct (readableb categories (Learner.dataset (this st))) eqn:Hread.
  - destruct (countSamples_init_readable (this st) Hread) as (res & -> & Hent).
    split; [done|]. split; [done|]. by intros res' [= <-].
  - destruct (countSamples_init_Throw (this st) Hread) as (msg & ->).
    split; [done|]. split; [by exists msg | done].
Qed.

(** Counting under a side condition. *)
Lemma count_if_split_le (p a b : Sample → bool) (ds : list Sample) :
  (∀ d, d ∈ ds → a d && b d = false) →
  count_if (λ d, p d && a d) ds + count_if (λ d, p d && b d) ds
  ≤ count_if p ds.
Proof.
  induction ds as [|d rest IH]; intros Hex; [done|]. cbn [count_if].
  pose proof (Hex d ltac:(left)) as Hd.
  assert (count_if (λ d, p d && a d) rest + count_if (λ d, p d && b d) rest
          ≤ count_if p rest) by (apply IH; intros; apply Hex; by right).
  destruct (p d), (a d), (b d); cbn in *; try discriminate; lia.
Qed.

Lemma count_if_split_ge (p a b : Sample → bool) (ds : list Sample) :
  (∀ d, d ∈ ds → a d || b d = true) →
  count_if p ds
  ≤ count_if (λ d, p d && a d) ds + count_if (λ d, p d && b d) ds.
Proof.
  induction ds as [|d rest IH]; intros Hcov; [done|]. cbn [count_if].
  pose proof (Hcov d ltac:(left)) as Hd.
  assert (count_if p rest
          ≤ count_if (λ d, p d && a d) rest + count_if (λ d, p d && b d) rest)
    by (apply IH; intros; apply Hcov; by right).
  destruct (p d), (a d), (b d); cbn in *; try discriminate; lia.
Qed.

(** X3. When no object is in both [trainSet] and [testSet], every entry of
  the result satisfies [train + test <= overall]: samples of the dataset
  that are in neither subset are counted in [overall] only. *)
Theorem getCategoryPartition_disjoint (st : St (C:=C)) :
  outputs_in categories (Learner.dataset (this st)) →
  disjoint_by_identity (Learner.trainSet (this st)) (Learner.testSet (this st)) →
  ∃ res, getCategoryPartition categories st = (OK res, st)
    ∧ ∀ cat c, res !! cat = Some c →
        Counts.train c + Counts.test c ≤ Counts.overall c.
Proof.
  intros Hout Hdisj. apply outputs_inb_complete in Hout.
  destruct (countSamples_init_OK (this st) Hout) as (res & Hrun & _ & _ & Hent).
  exists res. rewrite getCategoryPartition_unfold, Hrun. split; [done|].
  intros cat c. rewrite Hent. case_decide; [|done]. intros [= <-]. cbn.
  apply count_if_split_le. intros d _.
  destruct (includes (Learner.trainSet (this st)) d) eqn:Htr; [|done].
  destruct (includes (Learner.testSet (this st)) d) eqn:Hte; [|done].
  apply includes_true in Htr as (a & Ha & Hao).
  apply includes_true in Hte as (b & Hb & Hbo).
  destruct (Hdisj a b Ha Hb). congruence.
Qed.

(** X4. When every object of the dataset is in [trainSet] or in [testSet],
  every entry of the result satisfies [overall <= train + test]: a sample
  that is in both subsets is counted twice. *)
Theorem getCategoryPartition_covered (st : St (C:=C)) :
  outputs_in categories (Learner.dataset (this st)) →
  covers (Learner.trainSet (this st)) (Learner.testSet (this st))
    (Learner.dataset (this st)) →
  ∃ res, getCategoryPartition categories st = (OK res, st)
    ∧ ∀ cat c, res !! cat = Some c →
        Counts.overall c ≤ Counts.train c + Counts.test c.
Proof.
  intros Hout Hcov. apply outputs_inb_complete in Hout.
  destruct (countSamples_init_OK (this st) Hout) as (res & Hrun & _ & _ & Hent).
  exists res. rewrite getCategoryPartition_unfold, Hrun. split; [done|].
  intros cat c. rewrite Hent. case_decide; [|done]. intros [= <-]. cbn.
  apply count_if_split_ge. intros d Hd.
  destruct (Hcov d Hd) as (x & Hx & Hxo). apply orb_true_iff.
  apply elem_of_app in Hx as [Hx|Hx]; [left|right];
    apply includes_true; eauto.
Qed.

(** X5. Whatever [trainSet] and [testSet] are, when every output of the
  dataset is a category the keys of the result are the categories and its
  [overall] counts add up to the size of the dataset. *)
Theorem getCategoryPartition_total (st : St (C:=C)) :
  outputs_in categories (Learner.dataset (this st)) →
  ∃ res, getCategoryPartition categories st = (OK res, st)
    ∧ dom res = list_to_set categories
    ∧ total_overall res = length (Learner.dataset (this st)).
Proof.
  intros Hout. apply outputs_inb_complete in Hout.
  destruct (countSamples_init_OK (this st) Hout) as (res & Hrun & Hdom & Ht & _).
  exists res. by rewrite getCategoryPartition_unfold, Hrun.
Qed.

(** *** getStats, in general *)

(** The dataset loop reads the Learner through [trainSet] and [testSet]
  only. *)
Lemma countSamples_ext (l l' : Learner.t C) (ds : list Sample) :
  Learner.trainSet l = Learner.trainSet l' →
  Learner.testSet l = Learner.testSet l' →
  ∀ res, countSamples l res ds = countSamples l' res ds.
Proof.
  intros Htr Hte. induction ds as [|d rest IH]; intros res; [done|].
  cbn [countSamples]. unfold countSample. rewrite Htr, Hte.
  destruct (bump Counts.incr_overall (output d) res) as [res1|e]; [|done].
  cbn.
  destruct (if includes (Learner.trainSet l') d
            then bump Counts.incr_train (output d) res1 else OK res1)
    as [res2|e]; [|done].
  cbn.
  destruct (if includes (Learner.testSet l') d
            then bump Counts.incr_test (output d) res2 else OK res2)
    as [res3|e]; [|done].
  cbn. apply IH.
Qed.

Lemma getStats_unfold (st : St (C:=C)) :
  getStats categories st
  = match Learner.microAvg (this st) with
    | None =>
        (Throw (TypeError
           "Cannot destructure property 'TP' of 'this.microAvg' as it is undefined."),
         st)
    | Some m =>
        match countSamples (this st) (initCounts categories)
                (Learner.dataset (this st)) with
        | OK cp =>
            (OK {| Stats.TP := PrecisionRecall.TP m;
                   Stats.TN := PrecisionRecall.TN m;
                   Stats.FP := PrecisionRecall.FP m;
                   Stats.FN := PrecisionRecall.FN m;
                   Stats.confusion := PrecisionRecall.confusion m;
                   Stats.Precision := PrecisionRecall.Precision m;
                   Stats.Accuracy := PrecisionRecall.Accuracy m;
                   Stats.Recall := PrecisionRecall.Recall m;
                   Stats.F1 := PrecisionRecall.F1 m;
                   Stats.Specificity :=
                     (PrecisionRecall.TN m /
                        (PrecisionRecall.FP m + PrecisionRecall.TN m))%float;
                   Stats.totalCount := PrecisionRecall.count m;
                   Stats.trainCount := length (Learner.trainSet (this st));
                   Stats.testCount := length (Learner.testSet (this st));
                   Stats.categoryPartition := cp |}, st)
        | Throw e => (Throw e, st)
        end
    end.
Proof.
  cbv [getStats getCategoryPartition mbind M_mbind M_bind get_this defined
       throw lift_res mret M_mret M_ret].
  destruct (Learner.microAvg (this st)); [|done].
  by destruct (countSamples _ _ _).
Qed.

(** The report depends on the Learner through four fields only. *)
Lemma getStats_ext (st st' : St (C:=C)) :
  Learner.microAvg (this st) = Learner.microAvg (this st') →
  Learner.dataset (this st) = Learner.dataset (this st') →
  Learner.trainSet (this st) = Learner.trainSet (this st') →
  Learner.testSet (this st) = Learner.testSet (this st') →
  (getStats categories st).1 = (getStats categories st').1.
Proof.
  intros Hm Hd Htr Hte. rewrite !getStats_unfold, Hm, Hd, Htr, Hte.
  rewrite (countSamples_ext (this st) (this st') _ Htr Hte).
  destruct (Learner.microAvg (this st')); [|done].
  by destruct (countSamples _ _ _).
Qed.

(** C3. On a Learner whose [microAvg] is unset, [getStats] throws (the
  runtime's [TypeError] for destructuring [undefined]: this is the failure
  the specification names [NoStatsAvailable]) and leaves the state as it
  was. On a Learner whose [microAvg] is [m], with a dataset whose outputs
  are categories, [getStats] returns the report made of the counts, ratios
  and confusion matrix of [m], the total count of [m], the sizes of
  [trainSet] and [testSet], and the category partition: for every
  category its census (how many samples of the dataset carry it, and how
  many of those are in [trainSet], in [testSet]), which is what
  [getCategoryPartition] returns. *)
Theorem getStats_report (st : St (C:=C)) :
  (Learner.microAvg (this st) = None →
     ∃ msg, getStats categories st = (Throw (TypeError msg), st))
  ∧ (∀ m, Learner.microAvg (this st) = Some m →
       outputs_in categories (Learner.dataset (this st)) →
       ∃ cp, getCategoryPartition categories st = (OK cp, st)
         ∧ (∀ cat, cat ∈ categories → cp !! cat = Some (census (this st) cat))
         ∧ (∀ cat, cat ∉ categories → cp !! cat = None)
         ∧ getStats categories st
           = (OK {| Stats.TP := PrecisionRecall.TP m;
                    Stats.TN := PrecisionRecall.TN m;
                    Stats.FP := PrecisionRecall.FP m;
                    Stats.FN := PrecisionRecall.FN m;
                    Stats.confusion := PrecisionRecall.confusion m;
                    Stats.Precision := PrecisionRecall.Precision m;
                    Stats.Accuracy := PrecisionRecall.Accuracy m;
                    Stats.Recall := PrecisionRecall.Recall m;
                    Stats.F1 := PrecisionRecall.F1 m;
                    Stats.Specificity :=
                      (PrecisionRecall.TN m /
                         (PrecisionRecall.FP m + PrecisionRecall.TN m))%float;
                    Stats.totalCount := PrecisionRecall.count m;
                    Stats.trainCount := length (Learner.trainSet (this st));
                    Stats.testCount := length (Learner.testSet (this st));
                    Stats.categoryPartition := cp |}, st)).
Proof.
  split.
  - intros Hnone. eexists. rewrite getStats_unfold, Hnone. reflexivity.
  - intros m Hm Hout. apply outputs_inb_complete in Hout.
    destruct (countSamples_init_OK (this st) Hout)
      as (cp & Hrun & _ & _ & Hent).
    exists cp. rewrite getCategoryPartition_unfold, getStats_unfold, Hm, Hrun.
    split; [done|].
    split; [intros cat Hcat; rewrite Hent; by case_decide|].
    split; [intros cat Hcat; rewrite Hent; by case_decide|done].
Qed.

(** X6. [getStats] returns exactly when [microAvg] is set and every output
  of the dataset is a category or the name of a member of
  [Object.prototype]; every failure is a [TypeError], whatever the numbers
  in [microAvg] are; the Learner is left as it was. *)
Theorem getStats_outcome (st : St (C:=C)) :
  (getStats categories st).2 = st
  ∧ is_OK (getStats categories st).1
    = is_set (Learner.microAvg (this st))
      && readableb categories (Learner.dataset (this st))
  ∧ (is_OK (getStats categories st).1 = false →
     ∃ msg, (getStats categories st).1 = Throw (TypeError msg)).
Proof.
  rewrite getStats_unfold.
  destruct (Learner.microAvg (this st)) as [m|]; cbn [is_set andb].
  - destruct (readableb categories (Learner.dataset (this st))) eqn:Hout.
    + destruct (countSamples_init_readable _ Hout) as (res & -> & _).
      cbn. by repeat split.
    + destruct (countSamples_init_Throw _ Hout) as (msg & ->).
      cbn. repeat split; eauto.
  - cbn. repeat split; eauto.
Qed.

(** X7. Training does not refresh the statistics: [getStats] after
  [train] returns what it returned before. *)
Theorem getStats_after_train (trainSet : option (list Sample))
    (st : St (C:=C)) :
  (getStats categories (train trainSet st).2).1 = (getStats categories st).1.
Proof. by apply getStats_ext. Qed.

(** X8. A Learner just constructed has no statistics: [getStats] throws a
  [TypeError], and still does after [train]. *)
Theorem getStats_of_new_Learner (rng : Entropy) (opts : Opts.t C)
    (l : Learner.t C) (trainSet : option (list Sample)) :
  new_Learner labelDS classifierBuilder rng opts = OK l →
  ∃ msg,
    (getStats categories {| this := l; calls := [] |}).1
    = Throw (TypeError msg)
    ∧ (getStats categories (train trainSet {| this := l; calls := [] |}).2).1
      = Throw (TypeError msg).
Proof.
  unfold new_Learner. destruct (trainTestSplit _ _ _) as [[tr te]|e]; [|done].
  cbn. intros [= <-]. eexists. rewrite !getStats_unfold. by cbn.
Qed.

(** X9. [getStats] after [crossValidate] reports the sizes and the
  category partition of the subsets the Learner had before the call, not
  those of a fold, and the total count of the new micro accumulator. *)
Theorem getStats_after_crossValidate (rng : Entropy) (k : nat) (v : Z)
    (lg : bool) (st : St (C:=C)) :
  outputs_in categories (Learner.dataset (this st)) →
  ∃ r st1 report,
    crossValidate rng k v lg st = (OK r, st1)
    ∧ getStats categories st1 = (OK report, st1)
    ∧ Stats.trainCount report = length (Learner.trainSet (this st))
    ∧ Stats.testCount report = length (Learner.testSet (this st))
    ∧ (∀ cat, cat ∈ categories →
         Stats.categoryPartition report !! cat = Some (census (this st) cat))
    ∧ Stats.totalCount report
      = PrecisionRecall.count
          (calculateStats
             (cv_micro (cv_fold (cv_init (this st))
                          (partitions rng (Learner.dataset (this st)) k)))).
Proof.
  intros Hout. apply outputs_inb_complete in Hout.
  destruct (countSamples_init_OK (this st) Hout) as (res & Hrun & _ & _ & Hent).
  do 3 eexists. split; [apply crossValidate_run|].
  rewrite getStats_unfold. cbn [this Learner.microAvg with_cv_state].
  rewrite (countSamples_ext _ (this st)) by done.
  change (Learner.dataset (with_cv_state _ (this st)))
    with (Learner.dataset (this st)).
  rewrite Hrun. split; [reflexivity|]. cbn.
  repeat split. intros cat Hcat. rewrite Hent. by case_decide.
Qed.

(** Classification of a number by its specification. *)
Lemma finite_nonzero_inv (x : float) :
  is_finite x = true → is_zero x = false →
  ∃ s m e, Prim2SF x = S754_finite s m e.
Proof.
  unfold is_finite, is_nan, is_infinity, is_zero.
  rewrite !FloatAxioms.eqb_spec, abs_spec.
  change (Prim2SF infinity) with (S754_infinity false).
  change (Prim2SF 0) with (S754_zero false).
  destruct (Prim2SF x) as [s|s| |s m e]; cbn; try discriminate; eauto.
  by destruct s.
Qed.

(** X10. With no true negative and a non-zero finite number of false
  positives, the [Specificity] reported by [getStats] is zero. *)
Theorem getStats_specificity_zero (st : St (C:=C)) m :
  Learner.microAvg (this st) = Some m →
  outputs_in categories (Learner.dataset (this st)) →
  is_zero (PrecisionRecall.TN m) = true →
  is_finite (PrecisionRecall.FP m) = true →
  is_zero (PrecisionRecall.FP m) = false →
  ∃ report, getStats categories st = (OK report, st)
    ∧ is_zero (Stats.Specificity report) = true.
Proof.
  intros Hm Hout Htn Hfin Hnz. apply outputs_inb_complete in Hout.
  destruct (countSamples_init_OK (this st) Hout) as (res & Hrun & _).
  eexists. rewrite getStats_unfold, Hm, Hrun. split; [reflexivity|]. cbn.
  destruct (is_zero_inv _ Htn) as [stn Hstn].
  destruct (finite_nonzero_inv _ Hfin Hnz) as (s & mx & ex & Hfp).
  unfold is_zero. rewrite FloatAxioms.eqb_spec, div_spec, add_spec, Hstn, Hfp.
  change (Prim2SF 0) with (S754_zero false). cbn. reflexivity.
Qed.

(** *** crossValidate, in general *)

(** X11. What [crossValidate] computes and returns does not depend on the
  accumulators the Learner held before the call: both are replaced by new
  ones at the start. *)
Theorem crossValidate_resets_stats (rng : Entropy) (k : nat) (v : Z)
    (lg : bool) (macro micro : option PrecisionRecall.t) (st : St (C:=C)) :
  crossValidate rng k v lg (with_stats macro micro st)
  = crossValidate rng k v lg st.
Proof. by rewrite !crossValidate_run. Qed.

Lemma cv_fold_clf (splits : list (list Sample * list Sample)) :
  ∀ s : CVState,
  cv_clf (cv_fold s splits) = fold_left trainBatch splits.*1 (cv_clf s).
Proof.
  induction splits as [|split rest IH]; intros s; [done|].
  cbn [cv_fold fold_left fmap list_fmap]. apply (IH (cv_step s split)).
Qed.

(** X12. [crossValidate] leaves the Learner with the classifier it had,
  trained on the training subset of every fold in turn; and a later
  [crossValidate] does not start over: it begins with that classifier. *)
Theorem crossValidate_classifier_after (rng rng' : Entropy) (k k' : nat)
    (v v' : Z) (lg lg' : bool) (st : St (C:=C)) :
  ∃ r st' r' st'',
    crossValidate rng k v lg st = (OK r, st')
    ∧ Learner.classifier (this st')
      = fold_left trainBatch
          (partitions rng (Learner.dataset (this st)) k).*1
          (Learner.classifier (this st))
    ∧ crossValidate rng' k' v' lg' st' = (OK r', st'')
    ∧ Learner.classifier (this st'')
      = fold_left trainBatch
          (partitions rng' (Learner.dataset (this st)) k').*1
          (Learner.classifier (this st')).
Proof.
  do 4 eexists. split; [apply crossValidate_run|]. split.
  { cbn [this Learner.classifier with_cv_state cv_finish cv_clf].
    by rewrite cv_fold_clf. }
  split; [apply crossValidate_run|].
  cbn [this Learner.classifier with_cv_state cv_finish cv_clf].
  by rewrite cv_fold_clf.
Qed.

Lemma cv_fold_retrain (splits : list (list Sample * list Sample)) :
  (∀ (c c' : C) ds, trainBatch c ds = trainBatch c' ds) →
  ∀ s s' : CVState,
  cv_micro s = cv_micro s' → cv_macro s = cv_macro s' →
  cv_micro (cv_fold s splits) = cv_micro (cv_fold s' splits)
  ∧ cv_macro (cv_fold s splits) = cv_macro (cv_fold s' splits).
Proof.
  intros Hforget. induction splits as [|split rest IH]; intros s s' Hmi Hma.
  - by split.
  - cbn [cv_fold fold_left]. apply IH; unfold cv_step; cbn;
      by rewrite (Hforget (cv_clf s) (cv_clf s')), ?Hmi, ?Hma.
Qed.

(** X19. With a classifier whose [trainBatch] forgets what it had learned
  (its result depends on the batch only), the statistics [crossValidate]
  returns and stores do not depend on the classifier the Learner holds
  when it is called. *)
Theorem crossValidate_of_retraining_classifier (rng : Entropy) (k : nat)
    (v : Z) (lg : bool) (c0 : C) (st : St (C:=C)) :
  (∀ (c c' : C) ds, trainBatch c ds = trainBatch c' ds) →
  ∃ r st' st0',
    crossValidate rng k v lg st = (OK r, st')
    ∧ crossValidate rng k v lg
        {| this := with_classifier c0 (this st); calls := calls st |}
      = (OK r, st0')
    ∧ Learner.microAvg (this st0') = Learner.microAvg (this st')
    ∧ Learner.macroAvg (this st0') = Learner.macroAvg (this st').
Proof.
  intros Hforget.
  destruct (cv_fold_retrain
              (partitions rng (Learner.dataset (this st)) k) Hforget
              (cv_init (with_classifier c0 (this st))) (cv_init (this st))
              eq_refl eq_refl) as [Hmi Hma].
  do 3 eexists. split; [apply crossValidate_run|].
  rewrite crossValidate_run. cbn [this calls].
  change (Learner.dataset (with_classifier c0 (this st)))
    with (Learner.dataset (this st)).
  rewrite Hmi, Hma. split; [reflexivity|]. cbn. by rewrite Hmi, Hma.
Qed.

(** *** constructor, train, classify *)

(** X20. After [new Learner(opts)] and [train()], [classify] answers with
  the classifier the builder built, trained on the training subset that
  [trainTestSplit] returned at construction. *)
Theorem classify_after_train (rng : Entropy) (opts : Opts.t C)
    (l : Learner.t C) (x : string) :
  new_Learner labelDS classifierBuilder rng opts = OK l →
  ∃ tr te,
    trainTestSplit rng (default labelDS (Opts.dataset opts))
      (default (4 # 5)%Q (Opts.trainSplit opts)) = OK (tr, te)
    ∧ (Learner_classify x (train None {| this := l; calls := [] |}).2).1
      = OK (classify
              (trainBatch
                 (default classifierBuilder (Opts.classifier opts) ()) tr)
              x).
Proof.
  unfold new_Learner. destruct (trainTestSplit _ _ _) as [[tr te]|e]; [|done].
  cbn. intros [= <-]. by exists tr, te.
Qed.

(** *** fromJSON, in general *)

Lemma fromJSON_unfold (rng : Entropy) (json : Json.t C) :
  fromJSON labelDS classifierBuilder rng json
  = match new_Learner labelDS classifierBuilder rng (opts_of_json json) with
    | Throw e => (Throw e, [])
    | OK newLearner =>
        (match fromString (Json.classifier json) with
         | OK c => OK (with_classifier c (copy_allowed json newLearner))
         | Throw e => Throw e
         end, [EvFromString (Json.classifier json)])
    end.
Proof.
  unfold fromJSON, opts_of_json.
  destruct (new_Learner _ _ _ _) as [nl|e]; [|done].
  cbv [deserializeClassifier emit lift_res mbind M_mbind M_bind].
  cbn [this calls app]. by destruct (fromString _).
Qed.

Lemma copy_allowed_only_classifier (s : string) (l : Learner.t C) :
  copy_allowed (only_classifier s) l = l.
Proof. by destruct l. Qed.

(** X13. [fromJSON] of an object that has only a [classifier] is the
  Learner [new Learner()] builds from the defaults, with the deserialized
  classifier in place of the built one. *)
Theorem fromJSON_only_classifier (rng : Entropy) (s : string)
    (l : Learner.t C) (c : C) :
  new_Learner labelDS classifierBuilder rng
    {| Opts.dataset := None; Opts.trainSplit := None;
       Opts.classifier := None |} = OK l →
  fromString (Some s) = OK c →
  fromJSON labelDS classifierBuilder rng (only_classifier s)
  = (OK (with_classifier c l), [EvFromString (Some s)]).
Proof.
  intros Hnew Hde. rewrite fromJSON_unfold.
  change (opts_of_json (only_classifier s))
    with {| Opts.dataset := None; Opts.trainSplit := None;
            Opts.classifier := @None (unit → C) |}.
  rewrite Hnew. cbn [Json.classifier only_classifier]. rewrite Hde.
  by rewrite copy_allowed_only_classifier.
Qed.

(** X14. [fromJSON] returns exactly when the split of the constructor and
  the deserialization both succeed. The split is recomputed, and its
  failure thrown, even when [json] carries [trainSet] and [testSet]; the
  deserializer is called once, and not at all when the constructor has
  thrown. *)
Theorem fromJSON_outcome (rng : Entropy) (json : Json.t C) :
  is_OK (fromJSON labelDS classifierBuilder rng json).1
  = is_OK (trainTestSplit rng (default labelDS (Json.dataset json))
             (default (4 # 5)%Q (Json.trainSplit json)))
    && is_OK (fromString (C:=C) (Json.classifier json))
  ∧ (fromJSON labelDS classifierBuilder rng json).2
    = if is_OK (trainTestSplit rng (default labelDS (Json.dataset json))
                  (default (4 # 5)%Q (Json.trainSplit json)))
      then [EvFromString (Json.classifier json)] else [].
Proof.
  rewrite fromJSON_unfold. unfold new_Learner. cbn.
  destruct (trainTestSplit _ _ _) as [[tr te]|e]; cbn; [|done].
  by destruct (fromString _).
Qed.

(** What [fromJSON (toJSON l)] keeps of [l]. *)
Lemma fromJSON_toJSON_fields (rng : Entropy) (st : St (C:=C)) (c' : C) :
  is_OK (trainTestSplit rng (Learner.dataset (this st))
           (Learner.trainSplit (this st))) = true →
  fromString (Some (toString (Learner.classifier (this st))
                      (Learner.classifierBuilder (this st)))) = OK c' →
  ∃ json l', toJSON st = (OK json, st)
    ∧ (fromJSON labelDS classifierBuilder rng json).1 = OK l'
    ∧ Learner.dataset l' = Learner.dataset (this st)
    ∧ Learner.trainSet l' = Learner.trainSet (this st)
    ∧ Learner.testSet l' = Learner.testSet (this st)
    ∧ Learner.microAvg l' = Learner.microAvg (this st)
    ∧ Learner.classifier l' = c'.
Proof.
  intros Hsplit Hde.
  destruct (trainTestSplit rng _ _) as [[tr te]|e] eqn:Hs; [|discriminate].
  eexists. eexists. split.
  { cbv [toJSON serializeClassifier mbind M_mbind M_bind get_this mret
         M_mret M_ret]. reflexivity. }
  rewrite fromJSON_unfold. unfold new_Learner. cbn. rewrite Hs. cbn.
  rewrite Hde. cbn. split; [reflexivity|]. cbn. repeat split.
  by destruct (Learner.microAvg (this st)).
Qed.

(** X15. A Learner restored by [fromJSON] from the [toJSON] of [l] reports
  what [l] reports: [getStats] and [getCategoryPartition] return the same
  on both (or throw the same). *)
Theorem getStats_of_restored (rng : Entropy) (st : St (C:=C)) (c' : C) :
  is_OK (trainTestSplit rng (Learner.dataset (this st))
           (Learner.trainSplit (this st))) = true →
  fromString (Some (toString (Learner.classifier (this st))
                      (Learner.classifierBuilder (this st)))) = OK c' →
  ∃ json l', toJSON st = (OK json, st)
    ∧ (fromJSON labelDS classifierBuilder rng json).1 = OK l'
    ∧ (getStats categories {| this := l'; calls := [] |}).1
      = (getStats categories st).1
    ∧ (getCategoryPartition categories {| this := l'; calls := [] |}).1
      = (getCategoryPartition categories st).1.
Proof.
  intros Hsplit Hde.
  destruct (fromJSON_toJSON_fields rng st c' Hsplit Hde)
    as (json & l' & Hto & Hfrom & Hds & Htr & Hte & Hmicro & _).
  exists json, l'. split; [done|]. split; [done|]. split.
  - by apply getStats_ext.
  - rewrite !getCategoryPartition_unfold. cbn [fst this].
    by rewrite Hds, (countSamples_ext l' (this st)).
Qed.

(** *** Persistence, in general *)

(** X16. [serializeAndSaveClassifier] always settles its promise:
  fulfilled with the serialized classifier when the write succeeds,
  rejected with the error of [writeFile] when it fails (the [resolve] that
  follows the [reject] changes nothing). The file is written once, with
  the value the promise is fulfilled with, and the Learner is left as it
  was. *)
Theorem serializeAndSaveClassifier_settles (file : string)
    (err : option JsError) (st : St (C:=C)) :
  ∃ data out st',
    serializeAndSaveClassifier file err st = (OK out, st')
    ∧ data = toString (Learner.classifier (this st))
               (Learner.classifierBuilder (this st))
    ∧ Settled.promise out
      = match err with None => Fulfilled data | Some e => Rejected e end
    ∧ Settled.uncaught out = None
    ∧ this st' = this st
    ∧ calls st' = calls st ++ [EvWriteFile file data].
Proof. destruct err; do 3 eexists; (split; [reflexivity|]); by cbn. Qed.

(** X17. When the file is read but its contents do not deserialize, the
  promise of [loadAndDeserializeClassifier] is never settled: the error
  is thrown inside the callback of [readFile], before [resolve], and
  nothing rejects the promise. *)
Theorem loadAndDeserializeClassifier_malformed (file data : string)
    (e : JsError) (st : St (C:=C)) :
  fromString (C:=C) (Some data) = Throw e →
  loadAndDeserializeClassifier file None (Some data) st
  = (OK {| Settled.promise := Pending; Settled.uncaught := Some e |},
     {| this := this st;
        calls := calls st ++ [EvReadFile file; EvFromString (Some data)] |}).
Proof.
  intros Hde.
  cbv [loadAndDeserializeClassifier deserializeClassifier attempt emit
       lift_res mbind M_mbind M_bind mret M_mret M_ret].
  cbn [this calls]. rewrite Hde. by rewrite <- app_assoc.
Qed.

(** X18. Saving and then loading what was saved: when the deserializer
  accepts the serialized classifier, the promise of the load is fulfilled
  with the deserialized classifier; the Learner itself is not changed by
  either call (the loaded classifier is not installed). *)
Theorem save_then_load (file : string) (c' : C) (st : St (C:=C)) :
  fromString (Some (toString (Learner.classifier (this st))
                      (Learner.classifierBuilder (this st)))) = OK c' →
  ∃ written st1 st2,
    serializeAndSaveClassifier file None st
    = (OK {| Settled.promise := Fulfilled written;
             Settled.uncaught := None |}, st1)
    ∧ loadAndDeserializeClassifier file None (Some written) st1
      = (OK {| Settled.promise := Fulfilled c'; Settled.uncaught := None |},
         st2)
    ∧ this st2 = this st
    ∧ calls st2
      = calls st ++ [EvWriteFile file written; EvReadFile file;
                     EvFromString (Some written)].
Proof.
  intros Hde. do 3 eexists. split; [reflexivity|].
  cbv [loadAndDeserializeClassifier deserializeClassifier attempt emit
       lift_res mbind M_mbind M_bind mret M_mret M_ret].
  cbn [this calls]. rewrite Hde. split; [reflexivity|]. cbn.
  split; [done|]. by rewrite <- !app_assoc.
Qed.

End FurtherProperties.

(** ** The further properties on the fixture *)

(** C3 on the fixture: no report before cross-validation; after it, a
  report whose partition counts the two samples of ["bye"], one of them in
  each subset. *)
Lemma getStats_report_witness :
  (∃ msg, getStats Fixture.categories Fixture.fresh
          = (Throw (TypeError msg), Fixture.fresh))
  ∧ (∃ report, getStats Fixture.categories Fixture.validated
               = (OK report, Fixture.validated)
       ∧ Stats.trainCount report = 3
       ∧ Stats.categoryPartition report !! "bye"
         = Some {| Counts.overall := 2; Counts.test := 1;
                   Counts.train := 1 |}).
Proof.
  split.
  - apply (proj1 (getStats_report Fixture.categories Fixture.fresh)).
    reflexivity.
  - edestruct (proj2 (getStats_report Fixture.categories Fixture.validated))
      as (cp & _ & Hin & _ & Hrun).
    + vm_compute. reflexivity.
    + by apply outputs_inb_sound.
    + eexists. split; [exact Hrun|]. split; [reflexivity|].
      cbn [Stats.categoryPartition]. rewrite Hin; [reflexivity|].
      apply list_elem_of_In. cbn. auto.
Defined.

(** A sample whose output names a member of [Object.prototype] and is not
  a category: the call returns, and the sample is counted nowhere. *)
Example getCategoryPartition_inherited_output :
  (getCategoryPartition ["greet"]
     {| this :=
          {| Learner.dataset :=
               [Fixture.hello;
                {| oid := 4; input := "new"; output := "constructor" |}];
             Learner.trainSplit := (4 # 5)%Q;
             Learner.trainSet := [Fixture.hello];
             Learner.testSet := [];
             Learner.classifier := [];
             Learner.classifierBuilder := Fixture.classifierBuilder;
             Learner.macroAvg := None;
             Learner.microAvg := None |};
        calls := [] |}).1
  = OK {[ "greet" := {| Counts.overall := 1; Counts.test := 0;
                        Counts.train := 1 |} ]}.
Proof. vm_compute. reflexivity. Qed.

(** X1 on the fixture: the entry of ["bye"]. *)
Lemma getCategoryPartition_census_witness :
  ∃ res, getCategoryPartition Fixture.categories Fixture.fresh
         = (OK res, Fixture.fresh)
    ∧ res !! "bye"
      = Some {| Counts.overall := 2; Counts.test := 1; Counts.train := 1 |}.
Proof.
  destruct (getCategoryPartition_census Fixture.categories Fixture.fresh)
    as (res & Hrun & Hin & _).
  - by apply outputs_inb_sound.
  - exists res. split; [done|]. rewrite Hin; [reflexivity|].
    apply list_elem_of_In. cbn. auto.
Defined.

(** X3 on the fixture. *)
Lemma getCategoryPartition_disjoint_witness :
  ∃ res, getCategoryPartition Fixture.categories Fixture.fresh
         = (OK res, Fixture.fresh)
    ∧ ∀ cat c, res !! cat = Some c →
        Counts.train c + Counts.test c ≤ Counts.overall c.
Proof.
  apply getCategoryPartition_disjoint.
  - by apply outputs_inb_sound.
  - by apply disjointb_sound.
Defined.

(** X4 on the fixture. *)
Lemma getCategoryPartition_covered_witness :
  ∃ res, getCategoryPartition Fixture.categories Fixture.fresh
         = (OK res, Fixture.fresh)
    ∧ ∀ cat c, res !! cat = Some c →
        Counts.overall c ≤ Counts.train c + Counts.test c.
Proof.
  apply getCategoryPartition_covered.
  - by apply outputs_inb_sound.
  - by apply coversb_sound.
Defined.

(** X5 on the fixture. *)
Lemma getCategoryPartition_total_witness :
  ∃ res, getCategoryPartition Fixture.categories Fixture.validated
         = (OK res, Fixture.validated)
    ∧ dom res = list_to_set Fixture.categories
    ∧ total_overall res = 4.
Proof.
  apply (getCategoryPartition_total Fixture.categories Fixture.validated).
  by apply outputs_inb_sound.
Defined.

(** X8 on the fixture. *)
Lemma getStats_of_new_Learner_witness :
  ∃ msg,
    (getStats Fixture.categories {| this := Fixture.learner; calls := [] |}).1
    = Throw (TypeError msg)
    ∧ (getStats Fixture.categories
         (train None {| this := Fixture.learner; calls := [] |}).2).1
      = Throw (TypeError msg).
Proof.
  apply (getStats_of_new_Learner Fixture.labelDS Fixture.classifierBuilder
           Fixture.categories tt
           {| Opts.dataset := None; Opts.trainSplit := Some (3 # 4)%Q;
              Opts.classifier := None |}).
  reflexivity.
Defined.

(** X9 on the fixture: the folds have two training samples each, the
  report says three. *)
Lemma getStats_after_crossValidate_witness :
  ∃ report,
    getStats Fixture.categories Fixture.validated
    = (OK report, Fixture.validated)
    ∧ Stats.trainCount report = 3
    ∧ Stats.testCount report = 1.
Proof.
  destruct (getStats_after_crossValidate Fixture.categories tt 2 0 false
              Fixture.fresh)
    as (r & st1 & report & Hcv & Hstats & Htr & Hte & _).
  - by apply outputs_inb_sound.
  - assert (st1 = Fixture.validated) as ->
      by (unfold Fixture.validated; by rewrite Hcv).
    exists report. split; [exact Hstats|].
    rewrite Htr, Hte. split; reflexivity.
Defined.

(** X10 on the fixture: two false positives, no true negative. *)
Lemma getStats_specificity_zero_witness :
  ∃ report, getStats Fixture.categories Fixture.validated
            = (OK report, Fixture.validated)
    ∧ is_zero (Stats.Specificity report) = true.
Proof.
  eapply (getStats_specificity_zero Fixture.categories Fixture.validated).
  - vm_compute. reflexivity.
  - by apply outputs_inb_sound.
  - reflexivity.
  - reflexivity.
  - reflexivity.
Defined.

(** X13 on the fixture: the default ratio, the default dataset and the
  deserialized classifier. *)
Lemma fromJSON_only_classifier_witness :
  ∃ l', (fromJSON Fixture.labelDS Fixture.classifierBuilder tt
           (only_classifier "hey=greet;")).1 = OK l'
    ∧ Learner.classifier l' = [("hey", "greet")]
    ∧ Learner.trainSplit l' = (4 # 5)%Q
    ∧ Learner.dataset l' = Fixture.labelDS
    ∧ Learner.microAvg l' = None.
Proof.
  eexists. split.
  - rewrite (fromJSON_only_classifier Fixture.labelDS
               Fixture.classifierBuilder tt "hey=greet;"
               {| Learner.dataset := Fixture.labelDS;
                  Learner.trainSplit := (4 # 5)%Q;
                  Learner.trainSet :=
                    [Fixture.hello; Fixture.hi; Fixture.goodbye];
                  Learner.testSet := [Fixture.ciao];
                  Learner.classifier := [];
                  Learner.classifierBuilder := Fixture.classifierBuilder;
                  Learner.macroAvg := None;
                  Learner.microAvg := None |}
               [("hey", "greet")]); reflexivity.
  - by cbn.
Defined.

(** X15 on the fixture. *)
Lemma getStats_of_restored_witness :
  ∃ json l', toJSON Fixture.validated = (OK json, Fixture.validated)
    ∧ (fromJSON Fixture.labelDS Fixture.classifierBuilder tt json).1 = OK l'
    ∧ (getStats Fixture.categories {| this := l'; calls := [] |}).1
      = (getStats Fixture.categories Fixture.validated).1.
Proof.
  destruct (getStats_of_restored Fixture.labelDS Fixture.classifierBuilder
              Fixture.categories tt Fixture.validated
              [("goodbye", "bye"); ("ciao", "bye");
               ("hello", "greet"); ("hi", "greet")])
    as (json & l' & Hto & Hfrom & Hstats & _).
  - reflexivity.
  - reflexivity.
  - exists json, l'. split; [exact Hto|]. split; [exact Hfrom|exact Hstats].
Defined.

(** X17 with the strict deserializer: an empty file. *)
Lemma loadAndDeserializeClassifier_malformed_witness :
  (loadAndDeserializeClassifier (Serialization0:=Strict.serialization)
     "classifier.json" None (Some EmptyString) Fixture.fresh).1
  = OK {| Settled.promise := Pending;
          Settled.uncaught :=
            Some (ExtError "SyntaxError: Unexpected end of JSON input") |}.
Proof.
  by rewrite (loadAndDeserializeClassifier_malformed
                (Serialization0:=Strict.serialization)
                "classifier.json" EmptyString
                (ExtError "SyntaxError: Unexpected end of JSON input")
                Fixture.fresh).
Defined.

(** X18 on the fixture. *)
Lemma save_then_load_witness :
  ∃ written st1 st2,
    serializeAndSaveClassifier "classifier.json" None Fixture.validated
    = (OK {| Settled.promise := Fulfilled written;
             Settled.uncaught := None |}, st1)
    ∧ loadAndDeserializeClassifier "classifier.json" None (Some written) st1
      = (OK {| Settled.promise :=
                 Fulfilled [("goodbye", "bye"); ("ciao", "bye");
                            ("hello", "greet"); ("hi", "greet")];
               Settled.uncaught := None |}, st2)
    ∧ this st2 = this Fixture.validated
    ∧ calls st2
      = calls Fixture.validated
        ++ [EvWriteFile "classifier.json" written;
            EvReadFile "classifier.json"; EvFromString (Some written)].
Proof. apply save_then_load. reflexivity. Defined.

(** X19 with the classifier that forgets: the statistics are the same
  whether or not the Learner had memorised two samples before. *)
Lemma crossValidate_of_retraining_classifier_witness :
  ∃ r st' st0',
    crossValidate (Classifier0:=Retrain.classifier) tt 2 0 false Fixture.fresh
    = (OK r, st')
    ∧ crossValidate (Classifier0:=Retrain.classifier) tt 2 0 false
        {| this := with_classifier [("hello", "greet"); ("ciao", "bye")]
                     (this Fixture.fresh);
           calls := calls Fixture.fresh |}
      = (OK r, st0')
    ∧ Learner.microAvg (this st0') = Learner.microAvg (this st')
    ∧ Learner.macroAvg (this st0') = Learner.macroAvg (this st').
Proof.
  apply (crossValidate_of_retraining_classifier
           (Classifier0:=Retrain.classifier)).
  reflexivity.
Defined.

(** X20 on the fixture: trained on three samples, the classifier knows
  ["goodbye"] and not ["ciao"]. *)
Lemma classify_after_train_witness :
  (Learner_classify "goodbye"
     (train None {| this := Fixture.learner; calls := [] |}).2).1 = OK "bye"
  ∧ (Learner_classify "ciao"
       (train None {| this := Fixture.learner; calls := [] |}).2).1
    = OK EmptyString.
Proof.
  split.
  - destruct (classify_after_train Fixture.labelDS Fixture.classifierBuilder
                tt {| Opts.dataset := None; Opts.trainSplit := Some (3 # 4)%Q;
                      Opts.classifier := None |} Fixture.learner "goodbye")
      as (tr & te & Hsplit & ->); [reflexivity|].
    vm_compute in Hsplit. injection Hsplit as <- <-. reflexivity.
  - reflexivity.
Defined.
